(** * Documentation chatbot: search-and-summarize pipeline and chat session

    A shallow embedding of [src/lib/supabase.ts] ([searchArticles],
    [extractKeywords], [generateSummary], [generateContextualSummary]), of
    the handlers of [src/components/ChatInterface.tsx]
    ([handleSendMessage], [handleKeyPress]) and of the handlers of
    [src/components/AdminPanel.tsx] ([fetchArticles], [handleSave],
    [handleDelete], [startEditing], [handleKeywordsChange]).

    Modelling conventions.
    - A JavaScript string is a [string]; each [ascii] is one UTF-16 code unit
      in the range 0..255 (Latin-1).  [toLowerCase], [trim] and the regular
      expression class [\s] are the ECMAScript ones restricted to that range.
    - [created_at] / [updated_at] hold the instant stored in the
      [timestamptz] column (the client sees its ISO-8601 rendering); a [Date]
      is its epoch value in milliseconds.
    - The Supabase client is an external collaborator: a query built with the
      query builder is a first-order [Query] value, and awaiting it is an
      action on an abstract store [World] that settles to a
      [PostgrestResponse] or rejects. *)

From Stdlib Require Import String Ascii List Bool Arith ZArith Lia.
From Stdlib Require Import Sorted DecimalString.
Import ListNotations.

Local Open Scope list_scope.
Local Open Scope string_scope.
Local Open Scope nat_scope.

(* ------------------------------------------------------------------ *)
(** ** JavaScript built-ins used by the sources *)

Module Js.

Definition code (c : ascii) : nat := nat_of_ascii c.

(** ECMAScript [WhiteSpace] and [LineTerminator] code points below 256:
    TAB, LF, VT, FF, CR, SP and NBSP.  This is the class [\s] and the set
    removed by [String.prototype.trim]. *)
Definition isWhiteSpace (c : ascii) : bool :=
  let n := code c in
  ((9 <=? n) && (n <=? 13)) || (n =? 32) || (n =? 160).

(** Simple case mapping of one code unit: A-Z, and the Latin-1 capitals
    U+00C0..U+00DE except the multiplication sign U+00D7. *)
Definition toLowerUnit (c : ascii) : ascii :=
  let n := code c in
  if ((65 <=? n) && (n <=? 90))
     || ((192 <=? n) && (n <=? 222) && negb (n =? 215))
  then ascii_of_nat (n + 32) else c.

(** [String.prototype.toLowerCase]. *)
Fixpoint toLowerCase (s : string) : string :=
  match s with
  | EmptyString => EmptyString
  | String c r => String (toLowerUnit c) (toLowerCase r)
  end.

(** [isPrefixOf p s]: [s] starts with [p]. *)
Fixpoint isPrefixOf (p s : string) : bool :=
  match p, s with
  | EmptyString, _ => true
  | String _ _, EmptyString => false
  | String a p', String b s' => Ascii.eqb a b && isPrefixOf p' s'
  end.

(** [String.prototype.includes(search)]. *)
Fixpoint includes (s search : string) : bool :=
  isPrefixOf search s
  || match s with
     | EmptyString => false
     | String _ r => includes r search
     end.

(** [String.prototype.substring(start, end)] on non-negative integer
    arguments: the arguments are clamped to the length and swapped when
    [start > end]. *)
Fixpoint take (n : nat) (s : string) : string :=
  match n, s with
  | S n', String c r => String c (take n' r)
  | _, _ => EmptyString
  end.

Fixpoint drop (n : nat) (s : string) : string :=
  match n, s with
  | S n', String _ r => drop n' r
  | _, _ => s
  end.

Definition substring (start end_ : nat) (s : string) : string :=
  let a := Nat.min start end_ in
  let b := Nat.max start end_ in
  take (b - a) (drop a s).

(** [String.prototype.split(/\s+/)]: the pieces between maximal runs of
    white space; a leading or trailing run leaves an empty piece, and the
    empty string splits into one empty piece.  [inRun] tells that the
    previous code unit was white space. *)
Fixpoint splitRuns (inRun : bool) (s : string) : list string :=
  match s with
  | EmptyString => [EmptyString]
  | String c r =>
      if isWhiteSpace c then
        if inRun then splitRuns true r else EmptyString :: splitRuns true r
      else
        match splitRuns false r with
        | piece :: pieces => String c piece :: pieces
        | [] => [String c EmptyString]
        end
  end.

Definition splitWhitespace (s : string) : list string := splitRuns false s.

(** [String.prototype.trim]. *)
Fixpoint trimStart (s : string) : string :=
  match s with
  | String c r => if isWhiteSpace c then trimStart r else s
  | EmptyString => EmptyString
  end.

Fixpoint trimEnd (s : string) : string :=
  match s with
  | EmptyString => EmptyString
  | String c r =>
      match trimEnd r with
      | EmptyString => if isWhiteSpace c then EmptyString else String c EmptyString
      | r' => String c r'
      end
  end.

Definition trim (s : string) : string := trimEnd (trimStart s).

(** [Array.prototype.includes] on an array of strings. *)
Definition arrayIncludes (l : list string) (x : string) : bool :=
  existsb (String.eqb x) l.

(** [Array.prototype.slice(start, end)] on non-negative integer arguments. *)
Definition slice {A : Type} (start end_ : nat) (l : list A) : list A :=
  firstn (end_ - start) (skipn start l).

(** [Array.prototype.join(sep)] on an array of strings. *)
Fixpoint join (sep : string) (l : list string) : string :=
  match l with
  | [] => EmptyString
  | [x] => x
  | x :: rest => x ++ sep ++ join sep rest
  end.

(** [[...new Set(l)]]: the distinct elements in order of first occurrence. *)
Fixpoint distinct (l : list string) : list string :=
  match l with
  | [] => []
  | x :: rest => x :: filter (fun y => negb (String.eqb y x)) (distinct rest)
  end.

(** [String.prototype.split(sep)] for a separator of one code unit. *)
Fixpoint splitOn (sep : ascii) (s : string) : list string :=
  match s with
  | EmptyString => [EmptyString]
  | String c r =>
      if Ascii.eqb c sep then EmptyString :: splitOn sep r
      else
        match splitOn sep r with
        | piece :: pieces => String c piece :: pieces
        | [] => [String c EmptyString]
        end
  end.

(** [Number.prototype.toString] on a non-negative integer, as used by
    template literals on [articles.length]. *)
Definition natToString (n : nat) : string :=
  NilEmpty.string_of_uint (Nat.to_uint n).

(** [Number.prototype.toString] on an integer. *)
Definition intToString (z : Z) : string :=
  NilZero.string_of_int (Z.to_int z).

End Js.

(* ------------------------------------------------------------------ *)
(** ** Data model ([src/lib/supabase.ts]) *)

Record Article := mkArticle {
  id : string;
  title : string;
  content : string;
  keywords : list string;
  category : string;
  author : string;
  created_at : Z;
  updated_at : Z
}.

(** [ChatMessage]; the optional [articles] field is an [option]. *)
Record ChatMessage := mkChatMessage {
  msg_id : string;
  msg_content : string;
  isBot : bool;
  timestamp : Z;
  articles : option (list Article)
}.

(** The double quote and the line feed of the template literals. *)
Definition dq : string := String (ascii_of_nat 34) EmptyString.
Definition nl : string := String (ascii_of_nat 10) EmptyString.

(* ------------------------------------------------------------------ *)
(** ** The query builder and the promise it yields *)

(** The two filters the chat pipeline uses. *)
Inductive Filter : Type :=
| Overlaps (column : string) (values : list string)
| TextSearch (column : string) (query : string).

(** [supabase.from(t).select(c).<filter>.order(col, {ascending}).limit(n)]. *)
Record Query := mkQuery {
  q_from : string;
  q_select : string;
  q_filter : Filter;
  q_order : string * bool;
  q_limit : nat
}.

(** What an awaited query resolves to: [data] is [null] on error. *)
Record PostgrestResponse := mkResponse {
  data : option (list Article);
  error : option string
}.

(** A settled promise. *)
Inductive Settled (A : Type) : Type :=
| Fulfilled (a : A)
| Rejected (reason : string).

Arguments Fulfilled {A} a.
Arguments Rejected {A} reason.

(** Asynchronous code over a store [St]: state passing with rejection. *)
Definition M (St A : Type) : Type := St -> Settled A * St.

Definition ret {St A : Type} (a : A) : M St A := fun w => (Fulfilled a, w).

Definition bind {St A B : Type} (m : M St A) (k : A -> M St B) : M St B :=
  fun w =>
    match m w with
    | (Fulfilled a, w') => k a w'
    | (Rejected reason, w') => (Rejected reason, w')
    end.

Notation "x <- m ;; k" := (bind m (fun x => k))
  (at level 61, m at next level, right associativity).

(* ------------------------------------------------------------------ *)
(** ** [extractKeywords] *)

Definition stopWords : list string :=
  ["the"; "is"; "at"; "which"; "on"; "how"; "to"; "what"; "where"; "when";
   "why"; "and"; "or"; "but"; "in"; "with"; "for"].

(** The predicate of the [filter] call. *)
Definition keepWord (word : string) : bool :=
  (2 <? String.length word) && negb (Js.arrayIncludes stopWords word).

Definition extractKeywords (query : string) : list string :=
  Js.slice 0 5
    (filter keepWord (Js.splitWhitespace (Js.toLowerCase query))).

(* ------------------------------------------------------------------ *)
(** ** [generateContextualSummary] and [generateSummary] *)

(** [categories[0]]; indexing an empty array gives [undefined], which the
    template literal renders as the word. *)
Definition mainCategoryOf (articles : list Article) : string :=
  match Js.distinct (map category articles) with
  | c :: _ => c
  | [] => "undefined"
  end.

Definition howSentence (mainCategory : string) : string :=
  "Here are the step-by-step instructions from our " ++ mainCategory
  ++ " documentation. Follow the procedures outlined in these articles for best results.".

Definition whatSentence (mainCategory : string) : string :=
  "These articles explain the concepts and definitions related to "
  ++ mainCategory
  ++ ". Review the documentation for comprehensive understanding.".

Definition issueSentence (mainCategory : string) : string :=
  "These articles contain troubleshooting information and solutions for common issues in "
  ++ mainCategory ++ ". Check the error handling sections.".

Definition genericSentence (mainCategory : string) : string :=
  "The documentation covers various aspects of " ++ mainCategory
  ++ ". These articles should provide the information you're looking for.".

Definition generateContextualSummary (articles : list Article)
    (query : string) : string :=
  let mainCategory := mainCategoryOf articles in
  if Js.includes (Js.toLowerCase query) "how" then howSentence mainCategory
  else if Js.includes (Js.toLowerCase query) "what" then
    whatSentence mainCategory
  else if Js.includes (Js.toLowerCase query) "error"
          || Js.includes (Js.toLowerCase query) "issue" then
    issueSentence mainCategory
  else genericSentence mainCategory.

Definition noResultsMessage : string :=
  "I couldn't find any relevant articles for your query. Try using different keywords or check with an admin to ensure the documentation is available.".

(** The body of the [map] callback. *)
Definition articleBlock (article : Article) : string :=
  "**" ++ title article ++ "** (" ++ category article ++ "): "
  ++ Js.substring 0 200 (content article) ++ "...".

Definition summaryHeader (count : nat) (query : string) : string :=
  "Based on your query about " ++ dq ++ query ++ dq ++ ", I found "
  ++ Js.natToString count ++ " relevant article"
  ++ (if 1 <? count then "s" else EmptyString) ++ ":".

Definition generateSummary (articles : list Article) (query : string)
    : string :=
  if List.length articles =? 0 then noResultsMessage
  else
    let relevantContent :=
      Js.join (nl ++ nl) (map articleBlock (Js.slice 0 3 articles)) in
    summaryHeader (List.length articles) query ++ nl ++ nl
    ++ relevantContent ++ nl ++ nl ++ "**Summary**: "
    ++ generateContextualSummary articles query.

(* ------------------------------------------------------------------ *)
(** ** [searchArticles] *)

(** The first query of [searchArticles]. *)
Definition keywordQuery (keywords : list string) : Query :=
  mkQuery "articles" "*" (Overlaps "keywords" keywords)
          ("created_at", false) 5.

(** The second query of [searchArticles]. *)
Definition textQuery (query : string) : Query :=
  mkQuery "articles" "*" (TextSearch "title" query)
          ("created_at", false) 5.

(** [x || []] on a value that is an array or [null]. *)
Definition orEmpty (x : option (list Article)) : list Article :=
  match x with
  | Some rows => rows
  | None => []
  end.

(** [!x || x.length === 0]. *)
Definition nullOrEmpty (x : option (list Article)) : bool :=
  match x with
  | Some (_ :: _) => false
  | _ => true
  end.

Section Pipeline.

(** The store behind the client, and what awaiting a query does to it. *)
Variable World : Type.
Variable await : Query -> M World PostgrestResponse.

Definition searchArticles (query : string) : M World (list Article) :=
  let keywords := extractKeywords query in
  r1 <- await (keywordQuery keywords) ;;
  let keywordResults := data r1 in
  if nullOrEmpty keywordResults then
    r2 <- await (textQuery query) ;;
    let textResults := data r2 in
    let keywordResults := Some (orEmpty textResults) in
    ret (orEmpty keywordResults)
  else ret (orEmpty keywordResults).

(* ---------------------------------------------------------------- *)
(** ** [ChatInterface]: component state and [handleSendMessage] *)

(** The three [useState] cells of the component. *)
Record Component := mkComponent {
  messages : list ChatMessage;
  inputValue : string;
  isLoading : bool
}.

(** [Date.now()] reads the clock of the environment. *)
Variable dateNow : World -> Z * World.

Definition errorMessageText : string :=
  "I'm sorry, I encountered an error while searching for information. Please try again or contact an administrator.".

(** [!inputValue.trim() || isLoading]: the empty string is the only falsy
    string. *)
Definition sendGuard (c : Component) : bool :=
  String.eqb (Js.trim (inputValue c)) EmptyString || isLoading c.

(** [setMessages(prev => [...prev, m])]. *)
Definition appendMessage (m : ChatMessage) (c : Component) : Component :=
  mkComponent (messages c ++ [m])%list (inputValue c) (isLoading c).

Definition setInputValue (v : string) (c : Component) : Component :=
  mkComponent (messages c) v (isLoading c).

Definition setIsLoading (b : bool) (c : Component) : Component :=
  mkComponent (messages c) (inputValue c) b.

(** The handler up to its first suspension: the user turn is appended, the
    input cleared and the flag raised.  The text captured by the closure is
    returned with the new state. *)
Definition sendPrefix (c : Component) (w : World)
    : string * Component * World :=
  let captured := inputValue c in
  let (t1, w1) := dateNow w in
  let (t2, w2) := dateNow w1 in
  let userMessage :=
    mkChatMessage (Js.intToString t1) captured false t2 None in
  (captured,
   setIsLoading true (setInputValue EmptyString (appendMessage userMessage c)),
   w2).

(** The [try] block after [searchArticles] has fulfilled. *)
Definition onFulfilled (captured : string) (found : list Article)
    (c : Component) (w : World) : Component * World :=
  let response := generateSummary found captured in
  let (t1, w1) := dateNow w in
  let (t2, w2) := dateNow w1 in
  let botMessage :=
    mkChatMessage (Js.intToString (t1 + 1)) response true t2
                  (Some (Js.slice 0 3 found)) in
  (appendMessage botMessage c, w2).

(** The [catch] block. *)
Definition onRejected (c : Component) (w : World) : Component * World :=
  let (t1, w1) := dateNow w in
  let (t2, w2) := dateNow w1 in
  let errorMessage :=
    mkChatMessage (Js.intToString (t1 + 1)) errorMessageText true t2 None in
  (appendMessage errorMessage c, w2).

(** The [try]/[catch]/[finally] statement, run on the state the component
    has when the search settles. *)
Definition sendCompletion (captured : string) (c : Component) (w : World)
    : Component * World :=
  let (c', w') :=
    match searchArticles captured w with
    | (Fulfilled found, w1) => onFulfilled captured found c w1
    | (Rejected _, w1) => onRejected c w1
    end in
  (setIsLoading false c', w').

(** One whole run of [handleSendMessage] with nothing interleaved.  The
    promise it returns always fulfils: every path ends by falling off the
    end of the function. *)
Definition handleSendMessage (c : Component) : M World Component :=
  fun w =>
    if sendGuard c then (Fulfilled c, w)
    else
      let '(captured, c1, w1) := sendPrefix c w in
      let (c2, w2) := sendCompletion captured c1 w1 in
      (Fulfilled c2, w2).

(** ** The session: events interleaved with pending searches *)

(** The component, the texts of the searches that have been dispatched and
    have not settled, and the store. *)
Record Session := mkSession {
  view : Component;
  pending : list string;
  world : World
}.

Inductive Event : Type :=
| Typed (text : string)
| Submit
| Settle.

(** [Typed] is the [onChange] of the text area, [Submit] a call of
    [handleSendMessage] (button or Enter key), [Settle] the completion of
    the oldest pending search. *)
Definition step (e : Event) (s : Session) : Session :=
  match e with
  | Typed text => mkSession (setInputValue text (view s)) (pending s) (world s)
  | Submit =>
      if sendGuard (view s) then s
      else
        let '(captured, c1, w1) := sendPrefix (view s) (world s) in
        mkSession c1 (pending s ++ [captured])%list w1
  | Settle =>
      match pending s with
      | [] => s
      | captured :: rest =>
          let (c', w') := sendCompletion captured (view s) (world s) in
          mkSession c' rest w'
      end
  end.

Definition run (events : list Event) (s : Session) : Session :=
  fold_left (fun acc e => step e acc) events s.

(** [handleKeyPress]: Enter without Shift prevents the default action of
    the key and calls [handleSendMessage]; any other key is left alone.
    The boolean tells whether [preventDefault] was called. *)
Definition handleKeyPress (key : string) (shiftKey : bool) (s : Session)
    : bool * Session :=
  if String.eqb key "Enter" && negb shiftKey then (true, step Submit s)
  else (false, s).

(** A freshly mounted component: nothing typed, nothing in flight. *)
Definition mount (greeting : ChatMessage) (w : World) : Session :=
  mkSession (mkComponent [greeting] EmptyString false) [] w.

End Pipeline.

Arguments mkSession {World} view pending world.
Arguments view {World} s.
Arguments pending {World} s.
Arguments world {World} s.

(* ------------------------------------------------------------------ *)
(** ** [AdminPanel]: the article editor ([src/components/AdminPanel.tsx]) *)

Module AdminPanel.

(** [Partial<Article>]: every field may be missing. *)
Record Draft := mkDraft {
  d_id : option string;
  d_title : option string;
  d_content : option string;
  d_keywords : option (list string);
  d_category : option string;
  d_author : option string;
  d_created_at : option Z;
  d_updated_at : option Z
}.

(** An [Article] used as a draft. *)
Definition ofArticle (a : Article) : Draft :=
  mkDraft (Some (id a)) (Some (title a)) (Some (content a))
          (Some (keywords a)) (Some (category a)) (Some (author a))
          (Some (created_at a)) (Some (updated_at a)).

(** The object literal [articleData] of [handleSave]. *)
Record ArticleData := mkArticleData {
  data_title : string;
  data_content : string;
  data_keywords : list string;
  data_category : string;
  data_author : string
}.

(** The requests the panel sends:
    [from(t).select(c).order(col, {ascending})],
    [from(t).update(values).eq(col, v)], [from(t).insert(rows)] and
    [from(t).delete().eq(col, v)]. *)
Inductive Request : Type :=
| SelectAll (table columns : string) (order : string * bool)
| Update (table : string) (values : ArticleData) (column value : string)
| Insert (table : string) (rows : list ArticleData)
| Delete (table : string) (column value : string).

(** The four [useState] cells of the component. *)
Record Panel := mkPanel {
  articles : list Article;
  isEditing : bool;
  editingArticle : option Draft;
  loading : bool
}.

Definition setArticles (l : list Article) (p : Panel) : Panel :=
  mkPanel l (isEditing p) (editingArticle p) (loading p).

Definition setIsEditing (b : bool) (p : Panel) : Panel :=
  mkPanel (articles p) b (editingArticle p) (loading p).

Definition setEditingArticle (d : option Draft) (p : Panel) : Panel :=
  mkPanel (articles p) (isEditing p) d (loading p).

Definition setLoading (b : bool) (p : Panel) : Panel :=
  mkPanel (articles p) (isEditing p) (editingArticle p) b.

(** Truthiness of a string that may be [undefined]: only a present,
    non-empty string is truthy. *)
Definition truthy (o : option string) : bool :=
  match o with
  | Some s => negb (String.eqb s EmptyString)
  | None => false
  end.

(** [o || d] on such a string. *)
Definition orString (o : option string) (d : string) : string :=
  match o with
  | Some s => if String.eqb s EmptyString then d else s
  | None => d
  end.

(** [o || []]: an array is always truthy. *)
Definition orNoKeywords (o : option (list string)) : list string :=
  match o with
  | Some l => l
  | None => []
  end.

(** The request [handleSave] builds, or [None] when its guard returns:
    the title and the content must both be truthy; a truthy [id] selects
    the update of that row, otherwise the draft is inserted. *)
Definition saveRequest (editing : option Draft) : option Request :=
  match editing with
  | None => None
  | Some d =>
      if negb (truthy (d_title d)) || negb (truthy (d_content d)) then None
      else
        let articleData :=
          mkArticleData (orString (d_title d) EmptyString)
                        (orString (d_content d) EmptyString)
                        (orNoKeywords (d_keywords d))
                        (orString (d_category d) "General")
                        (orString (d_author d) "Admin") in
        if truthy (d_id d) then
          Some (Update "articles" articleData "id"
                       (orString (d_id d) EmptyString))
        else Some (Insert "articles" [articleData])
  end.

(** The draft [startEditing] opens when it is given no article. *)
Definition blankDraft : Draft :=
  mkDraft None (Some EmptyString) (Some EmptyString) (Some [])
          (Some "General") (Some "Admin") None None.

Definition startEditing (article : option Article) (p : Panel) : Panel :=
  setIsEditing true
    (setEditingArticle
       (Some match article with
             | Some a => ofArticle a
             | None => blankDraft
             end) p).

(** The array [handleKeywordsChange] computes from the text of the field. *)
Definition parseKeywords (value : string) : list string :=
  filter (fun k => 0 <? String.length k)
         (map Js.trim (Js.splitOn ","%char value)).

Definition withKeywords (ks : list string) (d : Draft) : Draft :=
  mkDraft (d_id d) (d_title d) (d_content d) (Some ks) (d_category d)
          (d_author d) (d_created_at d) (d_updated_at d).

Definition handleKeywordsChange (value : string) (p : Panel) : Panel :=
  let keywords := parseKeywords value in
  setEditingArticle
    match editingArticle p with
    | Some prev => Some (withKeywords keywords prev)
    | None => None
    end p.

(** The text shown in the keywords field:
    [editingArticle?.keywords?.join(', ') || '']. *)
Definition keywordsFieldValue (p : Panel) : string :=
  match editingArticle p with
  | Some d =>
      match d_keywords d with
      | Some ks => Js.join ", " ks
      | None => EmptyString
      end
  | None => EmptyString
  end.

Section Handlers.

Variable World : Type.
Variable await : Request -> M World PostgrestResponse.

(** [console.error(label, error)] and [confirm(message)]. *)
Variable consoleError : string -> string -> World -> World.
Variable confirm : string -> World -> bool * World.

Definition fetchArticles (p : Panel) (w : World) : Panel * World :=
  let (p', w') :=
    match await (SelectAll "articles" "*" ("created_at", false)) w with
    | (Fulfilled r, w1) =>
        match error r with
        | Some e => (p, consoleError "Error fetching articles:" e w1)
        | None => (setArticles (orEmpty (data r)) p, w1)
        end
    | (Rejected reason, w1) =>
        (p, consoleError "Error fetching articles:" reason w1)
    end in
  (setLoading false p', w').

(** One whole run of [handleSave]; the [fetchArticles()] it starts on
    success is run to its end. *)
Definition handleSave (p : Panel) (w : World) : Panel * World :=
  match saveRequest (editingArticle p) with
  | None => (p, w)
  | Some request =>
      match await request w with
      | (Fulfilled r, w1) =>
          match error r with
          | Some e => (p, consoleError "Error saving article:" e w1)
          | None =>
              fetchArticles (setEditingArticle None (setIsEditing false p)) w1
          end
      | (Rejected reason, w1) =>
          (p, consoleError "Error saving article:" reason w1)
      end
  end.

(** One whole run of [handleDelete]. *)
Definition handleDelete (id : string) (p : Panel) (w : World)
    : Panel * World :=
  let (confirmed, w0) :=
    confirm "Are you sure you want to delete this article?" w in
  if negb confirmed then (p, w0)
  else
    match await (Delete "articles" "id" id) w0 with
    | (Fulfilled r, w1) =>
        match error r with
        | Some e => (p, consoleError "Error deleting article:" e w1)
        | None => fetchArticles p w1
        end
    | (Rejected reason, w1) =>
        (p, consoleError "Error deleting article:" reason w1)
    end.

End Handlers.

End AdminPanel.

(* ------------------------------------------------------------------ *)
(** ** Stores *)

(** *** A store that records the queries it is asked

    Any store can be wrapped so that the list of awaited queries is kept
    beside it, oldest first. *)
Section Recording.

Variable World : Type.
Variable await : Query -> M World PostgrestResponse.

Definition Recorded : Type := list Query * World.

Definition recordingAwait (q : Query) : M Recorded PostgrestResponse :=
  fun lw =>
    let (r, w') := await q (snd lw) in
    (r, ((fst lw ++ [q])%list, w')).

End Recording.

Arguments recordingAwait {World} await q lw.

(** *** A store that replays scripted answers

    The store holds the answers still to give; once they are used up it
    answers with no rows and no error. *)
Definition Script : Type := list (Settled PostgrestResponse).

Definition scriptedAwait (q : Query) : M Script PostgrestResponse :=
  fun script =>
    match script with
    | Fulfilled r :: rest => (Fulfilled r, rest)
    | Rejected reason :: rest => (Rejected reason, rest)
    | [] => (Fulfilled (mkResponse (Some []) None), [])
    end.

(** *** The [articles] table

    What PostgREST does with a query of the shape [searchArticles] builds:
    keep the rows the filter accepts, order them by [created_at], keep the
    first [limit].  Full-text matching is left to the database. *)
Section Table.

(** [to_tsvector(text) @@ to_tsquery(query)]. *)
Variable textMatch : string -> string -> bool.

Definition columnArray (column : string) (a : Article) : list string :=
  if String.eqb column "keywords" then keywords a else [].

Definition columnText (column : string) (a : Article) : string :=
  if String.eqb column "id" then id a
  else if String.eqb column "title" then title a
  else if String.eqb column "content" then content a
  else if String.eqb column "category" then category a
  else if String.eqb column "author" then author a
  else EmptyString.

(** [&&] on arrays (the [ov] operator) and [@@]. *)
Definition accepts (f : Filter) (a : Article) : bool :=
  match f with
  | Overlaps column values =>
      existsb (Js.arrayIncludes values) (columnArray column a)
  | TextSearch column query => textMatch (columnText column a) query
  end.

(** Stable insertion in a list ordered newest first. *)
Fixpoint insertDesc (a : Article) (l : list Article) : list Article :=
  match l with
  | [] => [a]
  | b :: rest =>
      if (created_at b <? created_at a)%Z then a :: b :: rest
      else b :: insertDesc a rest
  end.

Definition sortDesc (l : list Article) : list Article :=
  fold_right insertDesc [] l.

Definition orderRows (ascending : bool) (l : list Article) : list Article :=
  if ascending then rev (sortDesc l) else sortDesc l.

Definition selectRows (q : Query) (table : list Article) : list Article :=
  firstn (q_limit q)
    (orderRows (snd (q_order q)) (filter (accepts (q_filter q)) table)).

Definition tableAwait (q : Query) : M (list Article) PostgrestResponse :=
  fun table => (Fulfilled (mkResponse (Some (selectRows q table)) None), table).

End Table.

(* ------------------------------------------------------------------ *)
(** ** Vocabulary of the statements *)

(** The code units of a string. *)
Definition units (s : string) : list ascii := list_ascii_of_string s.

(** No code unit of [s] is white space. *)
Definition noWhiteSpace (s : string) : bool :=
  forallb (fun c => negb (Js.isWhiteSpace c)) (units s).

(** Every code unit of [s] is white space. *)
Definition allWhiteSpace (s : string) : bool :=
  forallb Js.isWhiteSpace (units s).


(** [weave tokens seps]: the tokens with the separators between them. *)
Fixpoint weave (tokens seps : list string) : string :=
  match tokens, seps with
  | t :: tokens', sep :: seps' => t ++ sep ++ weave tokens' seps'
  | t :: _, [] => t
  | [], _ => EmptyString
  end.


(** Rows ordered newest first. *)
Definition newestFirst (rows : list Article) : Prop :=
  StronglySorted (fun a b => (created_at b <= created_at a)%Z) rows.

(** *** A store with a clock

    The clock is kept beside the store and advances by one millisecond at
    each reading. *)
Section Timed.

Variable World : Type.
Variable await : Query -> M World PostgrestResponse.

Definition Timed : Type := Z * World.

Definition timedAwait (q : Query) : M Timed PostgrestResponse :=
  fun tw =>
    let (r, w') := await q (snd tw) in
    (r, (fst tw, w')).

Definition timedNow (tw : Timed) : Z * Timed :=
  (fst tw, ((fst tw + 1)%Z, snd tw)).

End Timed.

Arguments timedAwait {World} await q tw.
Arguments timedNow {World} tw.


(** What holds of every session reached from a mounted component: a
    pending search implies a raised flag, and at most one is pending. *)
Definition oneInFlight {World : Type} (s : Session World) : Prop :=
  pending s = [] \/ (exists q, pending s = [q] /\ isLoading (view s) = true).

(** Every element but the last is a non-empty string. *)
Fixpoint allButLastNonEmpty (l : list string) : bool :=
  match l with
  | t :: (_ :: _) as rest =>
      negb (String.eqb t EmptyString) && allButLastNonEmpty rest
  | _ => true
  end.

(** A separator of [split(/\s+/)]: a non-empty run of white space. *)
Definition isSeparator (sep : string) : Prop :=
  sep <> EmptyString /\ allWhiteSpace sep = true.

(** [m] is a user turn, [m] is a bot turn. *)
Definition userTurn (m : ChatMessage) : bool := negb (isBot m).

(** The turns after the greeting come in pairs, a user turn then the bot
    turn that answers it; [open] tells that the last user turn has no
    answer yet. *)
Fixpoint paired (open : bool) (turns : list ChatMessage) : bool :=
  match turns with
  | [] => negb open
  | [u] => open && userTurn u
  | u :: b :: rest => userTurn u && isBot b && paired open rest
  end.

(** The state of a session reached from a mounted component: the log is
    the greeting followed by paired turns, the last pair lacking its answer
    exactly when the flag is raised, which is exactly when a search (a
    single one) is pending. *)
Definition wellFormed {World : Type} (greeting : ChatMessage)
    (s : Session World) : Prop :=
  exists turns,
    messages (view s) = greeting :: turns
    /\ paired (isLoading (view s)) turns = true
    /\ ((isLoading (view s) = false /\ pending s = [])
        \/ (isLoading (view s) = true /\ exists q, pending s = [q])).

(** A keyword as the editor stores it: not empty, no white space at
    either end, no comma. *)
Definition cleanKeyword (k : string) : Prop :=
  k <> EmptyString /\ Js.trim k = k /\ ~ In ","%char (units k).

(** *** Doubles for the editor

    The scripted store answering the requests of the editor, a console
    that drops what is logged, and a user who confirms every dialog. *)
Definition scriptedReply (request : AdminPanel.Request)
    : M Script PostgrestResponse :=
  fun script =>
    match script with
    | Fulfilled r :: rest => (Fulfilled r, rest)
    | Rejected reason :: rest => (Rejected reason, rest)
    | [] => (Fulfilled (mkResponse (Some []) None), [])
    end.

Definition silentConsole (label err : string) (w : Script) : Script := w.

Definition alwaysConfirm (message : string) (w : Script) : bool * Script :=
  (true, w).


(* ================================================================== *)
(** * Properties *)

(** ** Strings *)

Lemma append_nil_r (s : string) : s ++ EmptyString = s.
Proof. induction s as [|c s IH]; simpl; [reflexivity | now rewrite IH]. Qed.

Lemma append_assoc (a b c : string) : (a ++ b) ++ c = a ++ (b ++ c).
Proof. induction a as [|x a IH]; simpl; [reflexivity | now rewrite IH]. Qed.

Lemma length_append (a b : string) :
  String.length (a ++ b) = String.length a + String.length b.
Proof. induction a as [|x a IH]; simpl; [reflexivity | now rewrite IH]. Qed.

Lemma units_append (a b : string) : units (a ++ b) = (units a ++ units b)%list.
Proof. induction a as [|x a IH]; simpl; [reflexivity | now rewrite IH]. Qed.

Lemma arrayIncludes_In (l : list string) (x : string) :
  Js.arrayIncludes l x = true <-> In x l.
Proof.
  unfold Js.arrayIncludes. rewrite existsb_exists. split.
  - intros [y [Hy E]]. apply String.eqb_eq in E. now subst.
  - intros H. exists x. split; [exact H | apply String.eqb_refl].
Qed.

(** ** [split(/\s+/)] *)

Lemma splitRuns_nonempty (b : bool) (s : string) : Js.splitRuns b s <> [].
Proof.
  revert b. induction s as [|c s IH]; intros b; simpl; [discriminate|].
  destruct (Js.isWhiteSpace c).
  - destruct b; [apply IH | discriminate].
  - destruct (Js.splitRuns false s); discriminate.
Qed.

Lemma splitRuns_noWhiteSpace (b : bool) (s t : string) :
  In t (Js.splitRuns b s) -> noWhiteSpace t = true.
Proof.
  revert b t. induction s as [|c s IH]; intros b t; simpl.
  - intros [<-|[]]. reflexivity.
  - destruct (Js.isWhiteSpace c) eqn:Ec.
    + destruct b; simpl.
      * apply IH.
      * intros [<-|H]; [reflexivity | now apply IH in H].
    + destruct (Js.splitRuns false s) as [|piece pieces] eqn:Es.
      * intros [<-|[]]. unfold noWhiteSpace. simpl. now rewrite Ec.
      * intros [<-|H].
        -- unfold noWhiteSpace. simpl. rewrite Ec. simpl.
           apply (IH false piece). rewrite Es. now left.
        -- apply (IH false t). rewrite Es. now right.
Qed.

Lemma splitRuns_units (b : bool) (s : string) :
  concat (map units (Js.splitRuns b s))
  = filter (fun c => negb (Js.isWhiteSpace c)) (units s).
Proof.
  revert b. induction s as [|c s IH]; intros b; simpl; [reflexivity|].
  destruct (Js.isWhiteSpace c) eqn:Ec; simpl.
  - destruct b; simpl; apply IH.
  - specialize (IH false).
    destruct (Js.splitRuns false s) as [|piece pieces] eqn:Es; simpl in *.
    + now rewrite <- IH.
    + now rewrite <- IH.
Qed.

Lemma keepWord_spec (w : string) :
  keepWord w = true <-> 2 < String.length w /\ ~ In w stopWords.
Proof.
  unfold keepWord. rewrite andb_true_iff, Nat.ltb_lt, negb_true_iff.
  rewrite <- (arrayIncludes_In stopWords w).
  destruct (Js.arrayIncludes stopWords w); intuition congruence.
Qed.

(** ** Claims about [extractKeywords] *)

(** C3.  [extractKeywords] lower-cases the query and splits it on runs of
    white space: the tokens contain no white space and together are
    exactly the non-blank code units of the lower-cased query, in order.
    It keeps a token exactly when it is longer than two code units and is
    not one of the 17 stop words, and returns the first five kept tokens in
    their original order, repeats included.  So the result never has more
    than five elements, and the empty query gives the empty list. *)
Theorem C3_extractKeywords (query : string) :
  let tokens := Js.splitWhitespace (Js.toLowerCase query) in
  (forall t, In t tokens -> noWhiteSpace t = true)
  /\ concat (map units tokens)
     = filter (fun c => negb (Js.isWhiteSpace c))
              (units (Js.toLowerCase query))
  /\ (forall w, keepWord w = true
                <-> 2 < String.length w /\ ~ In w stopWords)
  /\ List.length stopWords = 17
  /\ extractKeywords query = firstn 5 (filter keepWord tokens)
  /\ List.length (extractKeywords query) <= 5
  /\ extractKeywords EmptyString = []
  /\ extractKeywords "Docker docker DOCKER" = ["docker"; "docker"; "docker"].
Proof.
  cbv zeta. split; [|split; [|split; [|split; [|split; [|split; [|split]]]]]].
  - intros t H. exact (splitRuns_noWhiteSpace false _ t H).
  - apply splitRuns_units.
  - apply keepWord_spec.
  - reflexivity.
  - reflexivity.
  - unfold extractKeywords, Js.slice. apply firstn_le_length.
  - reflexivity.
  - reflexivity.
Qed.

(** ** [includes] and [substring] *)




Lemma take_all (n : nat) (s : string) :
  String.length s <= n -> Js.take n s = s.
Proof.
  revert n. induction s as [|c s IH]; intros n H; destruct n; simpl in *;
    try reflexivity; try lia.
  rewrite IH; [reflexivity | lia].
Qed.


Lemma substring_0 (n : nat) (s : string) : Js.substring 0 n s = Js.take n s.
Proof. unfold Js.substring. simpl. now rewrite Nat.sub_0_r. Qed.

(** ** Claims about [generateSummary] *)




(** C7.  For the empty article list the summary is the fixed no-results
    message, whatever the query. *)
Theorem C7_no_results_message (query : string) :
  generateSummary [] query
  = "I couldn't find any relevant articles for your query. Try using different keywords or check with an admin to ensure the documentation is available.".
Proof. reflexivity. Qed.

(** C10.  The excerpt of an article is the first 200 code units of its
    content followed by an ellipsis, with no test on the length: a content
    shorter than 200 code units is shown whole and still followed by the
    ellipsis. *)
Theorem C10_short_content_keeps_ellipsis
    (a : Article) (Hshort : String.length (content a) < 200) :
  articleBlock a
  = "**" ++ title a ++ "** (" ++ category a ++ "): " ++ content a ++ "...".
Proof.
  unfold articleBlock. rewrite substring_0, take_all; [reflexivity | lia].
Qed.

Lemma C10_short_content_keeps_ellipsis_witness :
  articleBlock (mkArticle "7" "Deploy" "Use Docker." ["docker"] "DevOps"
                          "Admin" 0 0)
  = "**Deploy** (DevOps): Use Docker....".
Proof.
  apply (C10_short_content_keeps_ellipsis
           (mkArticle "7" "Deploy" "Use Docker." ["docker"] "DevOps"
                      "Admin" 0 0)).
  simpl. lia.
Defined.

(** ** Claims about [searchArticles] *)

(** C1 (as the code has it).  [searchArticles] always awaits the keyword
    query first, with the extracted keyword list even when that list is
    empty.  It awaits the full-text query on [title] with the raw query
    exactly when the keyword query fulfilled with no rows ([null] or an
    empty array).  The result is the keyword rows when there are some,
    otherwise the full-text rows, or the empty list when there are none;
    a rejection of either query is the rejection of the search. *)
Theorem C1_two_stage_protocol
    (World : Type) (await : Query -> M World PostgrestResponse)
    (query : string) (w : World) :
  let q1 := keywordQuery (extractKeywords query) in
  let q2 := textQuery query in
  let out :=
    searchArticles (Recorded World) (recordingAwait await) query ([], w) in
  match await q1 w with
  | (Rejected reason, w1) => out = (Rejected reason, ([q1], w1))
  | (Fulfilled r1, w1) =>
      match data r1 with
      | Some (a :: rows) => out = (Fulfilled (a :: rows), ([q1], w1))
      | _ =>
          match await q2 w1 with
          | (Rejected reason, w2) => out = (Rejected reason, ([q1; q2], w2))
          | (Fulfilled r2, w2) =>
              out = (Fulfilled (orEmpty (data r2)), ([q1; q2], w2))
          end
      end
  end.
Proof.
  cbv zeta. unfold searchArticles, bind, recordingAwait, ret. cbn [fst snd].
  destruct (await (keywordQuery (extractKeywords query)) w) as [[r1|reason] w1];
    [|reflexivity].
  destruct (data r1) as [[|a rows]|]; cbn [nullOrEmpty fst snd app];
    try reflexivity;
    destruct (await (textQuery query) w1) as [[r2|reason] w2]; reflexivity.
Qed.

(** C1, as claimed, fails: for the query "how to" no keyword survives, and
    the keyword query is awaited all the same, with the empty list, before
    the full-text query. *)
Lemma C1_empty_keywords_still_query_stage1 :
  extractKeywords "how to" = []
  /\ fst (snd (searchArticles (Recorded Script) (recordingAwait scriptedAwait)
                              "how to" ([], [])))
     = [keywordQuery []; textQuery "how to"]
  /\ fst (snd (searchArticles (Recorded Script) (recordingAwait scriptedAwait)
                              "how to" ([], [])))
     <> [textQuery "how to"].
Proof.
  split; [reflexivity|]. split; [reflexivity|]. cbv. discriminate.
Qed.

(** C2.  [searchArticles] never reads the [error] field of a response.  A
    keyword query answered with an error and no data is followed by the
    full-text query, whose rows are returned; a full-text query answered
    with an error and no data makes the search fulfil with the empty list,
    for which the summary is the no-results message and not the apology. *)
Theorem C2_store_error_is_swallowed
    (query reason : string) (rows : list Article) :
  searchArticles Script scriptedAwait query
    [Fulfilled (mkResponse None (Some reason));
     Fulfilled (mkResponse (Some rows) None)]
  = (Fulfilled rows, [])
  /\ searchArticles Script scriptedAwait query
       [Fulfilled (mkResponse (Some []) None);
        Fulfilled (mkResponse None (Some reason))]
     = (Fulfilled [], [])
  /\ generateSummary [] query = noResultsMessage
  /\ noResultsMessage <> errorMessageText.
Proof.
  split; [reflexivity|]. split; [reflexivity|]. split; [reflexivity|].
  cbv. discriminate.
Qed.

(** ** The [articles] table *)

Lemma insertDesc_In (a x : Article) (l : list Article) :
  In x (insertDesc a l) <-> x = a \/ In x l.
Proof.
  induction l as [|b l IH]; simpl.
  - intuition.
  - destruct (created_at b <? created_at a)%Z; simpl; [intuition|].
    rewrite IH. intuition.
Qed.

Lemma insertDesc_sorted (a : Article) (l : list Article) :
  newestFirst l -> newestFirst (insertDesc a l).
Proof.
  unfold newestFirst. induction 1 as [|b l Hl IH Hb]; simpl.
  - constructor; constructor.
  - destruct (created_at b <? created_at a)%Z eqn:E.
    + apply Z.ltb_lt in E. constructor; [now constructor|].
      constructor; [lia|].
      rewrite Forall_forall in *. intros x Hx. specialize (Hb x Hx). lia.
    + apply Z.ltb_ge in E. constructor; [exact IH|].
      rewrite Forall_forall in *. intros x Hx.
      apply insertDesc_In in Hx. destruct Hx as [->|Hx]; [exact E | now apply Hb].
Qed.

Lemma sortDesc_sorted (l : list Article) : newestFirst (sortDesc l).
Proof.
  induction l as [|a l IH]; simpl; [constructor | now apply insertDesc_sorted].
Qed.

Lemma sortDesc_In (x : Article) (l : list Article) :
  In x (sortDesc l) <-> In x l.
Proof.
  induction l as [|a l IH]; simpl; [tauto|].
  rewrite insertDesc_In, IH. intuition.
Qed.

Lemma firstn_In_list (n : nat) (x : Article) (l : list Article) :
  In x (firstn n l) -> In x l.
Proof. revert n; induction l; intros [|n]; simpl; intuition eauto. Qed.

Lemma firstn_sorted (n : nat) (l : list Article) :
  newestFirst l -> newestFirst (firstn n l).
Proof.
  unfold newestFirst. intros H. revert n.
  induction H as [|b l Hl IH Hb]; intros [|n]; simpl; try constructor.
  - apply IH.
  - rewrite Forall_forall in *. intros x Hx. apply Hb.
    now apply firstn_In_list in Hx.
Qed.

Lemma selectRows_length (textMatch : string -> string -> bool)
    (q : Query) (table : list Article) :
  List.length (selectRows textMatch q table) <= q_limit q.
Proof. unfold selectRows. apply firstn_le_length. Qed.

Lemma selectRows_newestFirst (textMatch : string -> string -> bool)
    (q : Query) (table : list Article) :
  snd (q_order q) = false -> newestFirst (selectRows textMatch q table).
Proof.
  intros H. unfold selectRows, orderRows. rewrite H.
  apply firstn_sorted, sortDesc_sorted.
Qed.

Lemma selectRows_In (textMatch : string -> string -> bool)
    (q : Query) (table : list Article) (a : Article) :
  snd (q_order q) = false ->
  In a (selectRows textMatch q table) ->
  In a table /\ accepts textMatch (q_filter q) a = true.
Proof.
  intros H. unfold selectRows, orderRows. rewrite H. intros Ha.
  apply firstn_In_list, sortDesc_In, filter_In in Ha. exact Ha.
Qed.

(** C6.  Both queries of [searchArticles] ask for the rows ordered by
    [created_at] descending and limited to five.  Against the [articles]
    table each stage therefore yields at most five rows, newest first, and
    so does the search, whose result is the rows of one of the two
    stages. *)
Theorem C6_at_most_five_newest_first
    (textMatch : string -> string -> bool)
    (table : list Article) (query : string) :
  let q1 := keywordQuery (extractKeywords query) in
  let q2 := textQuery query in
  let stage1 := selectRows textMatch q1 table in
  let stage2 := selectRows textMatch q2 table in
  (q_order q1 = ("created_at", false) /\ q_limit q1 = 5)
  /\ (q_order q2 = ("created_at", false) /\ q_limit q2 = 5)
  /\ (List.length stage1 <= 5 /\ newestFirst stage1)
  /\ (List.length stage2 <= 5 /\ newestFirst stage2)
  /\ exists rows,
       searchArticles (list Article) (tableAwait textMatch) query table
       = (Fulfilled rows, table)
       /\ (rows = stage1 \/ rows = stage2)
       /\ List.length rows <= 5 /\ newestFirst rows.
Proof.
  cbv zeta.
  assert (H1 : List.length
                 (selectRows textMatch (keywordQuery (extractKeywords query))
                             table) <= 5
               /\ newestFirst
                    (selectRows textMatch
                                (keywordQuery (extractKeywords query)) table)).
  { split; [apply (selectRows_length textMatch (keywordQuery _))
           | now apply selectRows_newestFirst]. }
  assert (H2 : List.length (selectRows textMatch (textQuery query) table) <= 5
               /\ newestFirst (selectRows textMatch (textQuery query) table)).
  { split; [apply (selectRows_length textMatch (textQuery _))
           | now apply selectRows_newestFirst]. }
  split; [now split|]. split; [now split|].
  split; [exact H1|]. split; [exact H2|].
  unfold searchArticles, bind, tableAwait, ret. cbn [data].
  destruct (selectRows textMatch (keywordQuery (extractKeywords query)) table)
    as [|a rows] eqn:E; cbn [nullOrEmpty orEmpty].
  - exists (selectRows textMatch (textQuery query) table).
    split; [reflexivity|]. split; [now right | exact H2].
  - exists (a :: rows). split; [reflexivity|]. split; [now left | exact H1].
Qed.

(** ** [trim] and the guard of [handleSendMessage] *)

Lemma trimEnd_empty (s : string) :
  Js.trimEnd s = EmptyString <-> allWhiteSpace s = true.
Proof.
  unfold allWhiteSpace. induction s as [|c s IH]; simpl.
  - tauto.
  - destruct (Js.trimEnd s) as [|x r].
    + destruct (Js.isWhiteSpace c); simpl.
      * tauto.
      * split; discriminate.
    + split; [discriminate|]. rewrite andb_true_iff. intros [_ H].
      apply IH in H. discriminate.
Qed.

Lemma allWhiteSpace_trimStart (s : string) :
  allWhiteSpace (Js.trimStart s) = allWhiteSpace s.
Proof.
  unfold allWhiteSpace. induction s as [|c s IH]; simpl; [reflexivity|].
  destruct (Js.isWhiteSpace c) eqn:E; simpl; [exact IH | now rewrite E].
Qed.

Lemma trim_empty (s : string) :
  Js.trim s = EmptyString <-> allWhiteSpace s = true.
Proof. unfold Js.trim. now rewrite trimEnd_empty, allWhiteSpace_trimStart. Qed.

Lemma sendGuard_spec (c : Component) :
  sendGuard c = true
  <-> allWhiteSpace (inputValue c) = true \/ isLoading c = true.
Proof.
  unfold sendGuard. now rewrite orb_true_iff, String.eqb_eq, trim_empty.
Qed.

(** ** The chat session *)

Lemma generateSummary_not_apology (found : list Article) (query : string) :
  generateSummary found query <> errorMessageText.
Proof.
  destruct found as [|a rest].
  - cbv. discriminate.
  - unfold generateSummary, summaryHeader. cbn [List.length Nat.eqb].
    cbn [append]. unfold errorMessageText. discriminate.
Qed.

Section SessionProperties.

Variable World : Type.
Variable await : Query -> M World PostgrestResponse.
Variable dateNow : World -> Z * World.

Lemma sendPrefix_spec (c : Component) (w : World) :
  exists (m : ChatMessage) (w' : World),
    sendPrefix World dateNow c w
    = (inputValue c,
       mkComponent (messages c ++ [m])%list EmptyString true, w')
    /\ msg_content m = inputValue c /\ isBot m = false /\ articles m = None.
Proof.
  unfold sendPrefix.
  destruct (dateNow w) as [t1 w1]. destruct (dateNow w1) as [t2 w2].
  eexists. eexists. split; [reflexivity|]. now repeat split.
Qed.

Lemma sendCompletion_spec (captured : string) (c : Component) (w : World) :
  exists (m : ChatMessage) (w' : World),
    sendCompletion World await dateNow captured c w
    = (mkComponent (messages c ++ [m])%list (inputValue c) false, w')
    /\ isBot m = true
    /\ match searchArticles World await captured w with
       | (Fulfilled found, _) =>
           msg_content m = generateSummary found captured
           /\ articles m = Some (Js.slice 0 3 found)
       | (Rejected _, _) =>
           msg_content m = errorMessageText /\ articles m = None
       end.
Proof.
  unfold sendCompletion.
  destruct (searchArticles World await captured w) as [[found|reason] w1].
  - unfold onFulfilled.
    destruct (dateNow w1) as [t1 w2]. destruct (dateNow w2) as [t2 w3].
    eexists. eexists. split; [reflexivity|]. now repeat split.
  - unfold onRejected.
    destruct (dateNow w1) as [t1 w2]. destruct (dateNow w2) as [t2 w3].
    eexists. eexists. split; [reflexivity|]. now repeat split.
Qed.

(** C8.  The completion of a cycle always appends one bot turn and lowers
    the loading flag, which the handler raised before the search was
    awaited; the handler itself always fulfils.  The turn is the fixed
    apology exactly when the search rejects.  A store failure, though, is
    answered by the client with an error object and no data, which the
    search does not read: when both queries are answered so, the search
    fulfils with no rows and the turn appended is the no-results summary,
    not the apology. *)
Theorem C8_store_failure_gets_no_results_turn
    (captured : string) (c : Component) (w : World) :
  isLoading (snd (fst (sendPrefix World dateNow c w))) = true
  /\ isLoading (fst (sendCompletion World await dateNow captured c w)) = false
  /\ (exists c' w',
        handleSendMessage World await dateNow c w = (Fulfilled c', w')
        /\ (sendGuard c = false -> isLoading c' = false))
  /\ (exists m,
        messages (fst (sendCompletion World await dateNow captured c w))
        = (messages c ++ [m])%list
        /\ isBot m = true
        /\ (msg_content m = errorMessageText
            <-> exists reason w',
                  searchArticles World await captured w
                  = (Rejected reason, w')))
  /\ (forall (e1 e2 : string) (w1 w2 : World),
        await (keywordQuery (extractKeywords captured)) w
        = (Fulfilled (mkResponse None (Some e1)), w1) ->
        await (textQuery captured) w1
        = (Fulfilled (mkResponse None (Some e2)), w2) ->
        searchArticles World await captured w = (Fulfilled [], w2)
        /\ exists m,
             messages (fst (sendCompletion World await dateNow captured c w))
             = (messages c ++ [m])%list
             /\ isBot m = true
             /\ msg_content m = noResultsMessage
             /\ msg_content m <> errorMessageText).
Proof.
  destruct (sendPrefix_spec c w) as [m0 [w0 [E0 _]]].
  destruct (sendCompletion_spec captured c w) as [m [w' [E [Hbot Hm]]]].
  split; [now rewrite E0|]. split; [now rewrite E|].
  split; [|split].
  - unfold handleSendMessage. destruct (sendGuard c).
    + exists c, w. split; [reflexivity | discriminate].
    + rewrite E0.
      destruct (sendCompletion_spec (inputValue c)
                  (mkComponent (messages c ++ [m0])%list EmptyString true) w0)
        as [m1 [w1 [E1 _]]].
      rewrite E1. eexists. eexists. split; reflexivity.
  - exists m. rewrite E. split; [reflexivity|]. split; [exact Hbot|].
    destruct (searchArticles World await captured w) as [[found|reason] w1].
    + destruct Hm as [Hm _]. split.
      * intros H. rewrite Hm in H.
        now apply generateSummary_not_apology in H.
      * intros [reason [w2 H]]. discriminate.
    + destruct Hm as [Hm _]. split; [|intros _; exact Hm].
      intros _. now exists reason, w1.
  - intros e1 e2 w1 w2 H1 H2.
    assert (Hs : searchArticles World await captured w = (Fulfilled [], w2)).
    { unfold searchArticles, bind, ret. rewrite H1.
      cbn [data nullOrEmpty]. now rewrite H2. }
    split; [exact Hs|].
    rewrite Hs in Hm. destruct Hm as [Hm _].
    exists m. rewrite E. split; [reflexivity|]. split; [exact Hbot|].
    rewrite Hm. split; [reflexivity|]. cbv. discriminate.
Qed.

Lemma step_oneInFlight (e : Event) (s : Session World) :
  oneInFlight s -> oneInFlight (step World await dateNow e s).
Proof.
  intros H. destruct e; simpl.
  - destruct H as [H|[q [H1 H2]]]; [now left | right; now exists q].
  - destruct (sendGuard (view s)) eqn:G; [exact H|].
    destruct (sendPrefix_spec (view s) (world s)) as [m [w' [E _]]].
    rewrite E. simpl.
    destruct H as [H|[q [H1 H2]]].
    + right. exists (inputValue (view s)). rewrite H. now split.
    + unfold sendGuard in G. rewrite H2, orb_true_r in G. discriminate.
  - destruct H as [H|[q [H1 H2]]].
    + rewrite H. now left.
    + rewrite H1.
      destruct (sendCompletion World await dateNow q (view s) (world s)).
      now left.
Qed.

Lemma run_oneInFlight (events : list Event) (s : Session World) :
  oneInFlight s -> oneInFlight (run World await dateNow events s).
Proof.
  unfold run. revert s. induction events as [|e events IH]; intros s H; simpl.
  - exact H.
  - apply IH. now apply step_oneInFlight.
Qed.

(** C9.  A submit while the input is blank (empty or white space only) or
    while a cycle is in flight changes nothing: the turn log, the input,
    the flag, the pending searches and the store are as before.  So in
    every session reached from a mounted component at most one search is
    pending. *)
Theorem C9_blocked_submit_is_noop :
  (forall (c : Component) (w : World),
      allWhiteSpace (inputValue c) = true \/ isLoading c = true ->
      handleSendMessage World await dateNow c w = (Fulfilled c, w))
  /\ (forall s : Session World,
      allWhiteSpace (inputValue (view s)) = true
      \/ isLoading (view s) = true ->
      step World await dateNow Submit s = s)
  /\ (forall (events : list Event) (greeting : ChatMessage) (w : World),
      List.length
        (pending (run World await dateNow events (mount World greeting w)))
      <= 1).
Proof.
  split; [|split].
  - intros c w H. apply sendGuard_spec in H.
    unfold handleSendMessage. now rewrite H.
  - intros s H. apply sendGuard_spec in H. simpl. now rewrite H.
  - intros events greeting w.
    assert (H : oneInFlight
                  (run World await dateNow events (mount World greeting w))).
    { apply run_oneInFlight. now left. }
    destruct H as [H|[q [H _]]]; rewrite H; simpl; lia.
Qed.

End SessionProperties.

(* ================================================================== *)
(** * Further properties *)

(** ** [split(/\s+/)] in full *)

Lemma weave_cons_unit (c : ascii) (piece : string) (pieces seps : list string) :
  weave (String c piece :: pieces) seps
  = String c (weave (piece :: pieces) seps).
Proof. destruct seps; reflexivity. Qed.

Lemma splitRuns_weave (b : bool) (s : string) :
  exists (lead : string) (seps : list string),
    allWhiteSpace lead = true
    /\ (b = false -> lead = EmptyString)
    /\ S (List.length seps) = List.length (Js.splitRuns b s)
    /\ Forall isSeparator seps
    /\ s = lead ++ weave (Js.splitRuns b s) seps.
Proof.
  revert b. induction s as [|c s IH]; intros b.
  - exists EmptyString, []. simpl. repeat split; auto.
  - simpl. destruct (Js.isWhiteSpace c) eqn:Ec.
    + destruct (IH true) as [lead [seps [Hl [_ [Hn [Hs E]]]]]].
      destruct b.
      * exists (String c lead), seps. repeat split; auto.
        -- unfold allWhiteSpace in *. simpl. now rewrite Ec.
        -- discriminate.
        -- simpl. now rewrite <- E.
      * exists EmptyString, (String c lead :: seps). repeat split; auto.
        -- simpl. now rewrite Hn.
        -- constructor; [|exact Hs]. split; [discriminate|].
           unfold allWhiteSpace in *. simpl. now rewrite Ec.
        -- simpl. now rewrite <- E.
    + destruct (IH false) as [lead [seps [_ [Hl [Hn [Hs E]]]]]].
      rewrite (Hl eq_refl) in E. simpl in E.
      destruct (Js.splitRuns false s) as [|piece pieces].
      * simpl in Hn. discriminate.
      * exists EmptyString, seps. repeat split; auto.
        rewrite weave_cons_unit. cbn [append]. now rewrite <- E.
Qed.

Lemma splitRuns_allButLastNonEmpty (s : string) :
  allButLastNonEmpty (Js.splitRuns true s) = true
  /\ allButLastNonEmpty (tl (Js.splitRuns false s)) = true.
Proof.
  induction s as [|c s [IH1 IH2]]; [now split|].
  simpl. destruct (Js.isWhiteSpace c).
  - now split.
  - destruct (Js.splitRuns false s) as [|piece pieces]; [now split|].
    simpl in IH2. split; [|exact IH2].
    destruct pieces; [reflexivity|]. simpl in *. exact IH2.
Qed.

(** The pieces [split(/\s+/)] returns for any string: woven with suitable
    separators, each a non-empty run of white space, they give the string
    back; no piece contains white space; and no piece other than the first
    and the last is empty (the separators are maximal runs). *)
Theorem split_whitespace_characterised (s : string) :
  let tokens := Js.splitWhitespace s in
  (exists seps : list string,
      S (List.length seps) = List.length tokens
      /\ Forall isSeparator seps
      /\ weave tokens seps = s)
  /\ Forall (fun t => noWhiteSpace t = true) tokens
  /\ allButLastNonEmpty (tl tokens) = true.
Proof.
  cbv zeta. unfold Js.splitWhitespace. split; [|split].
  - destruct (splitRuns_weave false s) as [lead [seps [_ [Hl [Hn [Hs E]]]]]].
    rewrite (Hl eq_refl) in E. exists seps. repeat split; auto.
  - apply Forall_forall. intros t. apply splitRuns_noWhiteSpace.
  - apply splitRuns_allButLastNonEmpty.
Qed.

(** ** Lower case *)

Lemma toLowerUnit_idempotent (c : ascii) :
  Js.toLowerUnit (Js.toLowerUnit c) = Js.toLowerUnit c.
Proof. destruct c as [[] [] [] [] [] [] [] []]; reflexivity. Qed.

Lemma isWhiteSpace_toLowerUnit (c : ascii) :
  Js.isWhiteSpace (Js.toLowerUnit c) = Js.isWhiteSpace c.
Proof. destruct c as [[] [] [] [] [] [] [] []]; reflexivity. Qed.

Lemma units_toLowerCase (s : string) :
  units (Js.toLowerCase s) = map Js.toLowerUnit (units s).
Proof. induction s as [|c s IH]; simpl; [reflexivity | now rewrite IH]. Qed.

Lemma toLowerCase_idempotent (s : string) :
  Js.toLowerCase (Js.toLowerCase s) = Js.toLowerCase s.
Proof.
  induction s as [|c s IH]; simpl; [reflexivity|].
  now rewrite toLowerUnit_idempotent, IH.
Qed.

Lemma toLowerCase_fixed (k : string) :
  (forall c, In c (units k) -> Js.toLowerUnit c = c) -> Js.toLowerCase k = k.
Proof.
  induction k as [|c k IH]; simpl; intros H; [reflexivity|].
  rewrite H by now left. rewrite IH; [reflexivity|]. intros x Hx. apply H. now right.
Qed.

Lemma splitRuns_units_In (b : bool) (s t : string) (c : ascii) :
  In t (Js.splitRuns b s) -> In c (units t) -> In c (units s).
Proof.
  intros Ht Hc.
  assert (H : In c (concat (map units (Js.splitRuns b s)))).
  { apply in_concat. exists (units t). split; [now apply in_map | exact Hc]. }
  rewrite splitRuns_units in H. now apply filter_In in H.
Qed.

Lemma firstn_In_any {A : Type} (n : nat) (x : A) (l : list A) :
  In x (firstn n l) -> In x l.
Proof. revert n; induction l; intros [|n]; simpl; intuition eauto. Qed.

Lemma extractKeywords_In (query k : string) :
  In k (extractKeywords query) ->
  In k (Js.splitWhitespace (Js.toLowerCase query)) /\ keepWord k = true.
Proof.
  unfold extractKeywords, Js.slice. intros H.
  apply firstn_In_any in H. simpl in H. now apply filter_In in H.
Qed.

Lemma extractKeywords_lowercase (query k : string) :
  In k (extractKeywords query) -> Js.toLowerCase k = k.
Proof.
  intros H. apply extractKeywords_In in H. destruct H as [H _].
  apply toLowerCase_fixed. intros c Hc.
  apply (splitRuns_units_In false _ k c H) in Hc.
  rewrite units_toLowerCase in Hc. apply in_map_iff in Hc.
  destruct Hc as [x [<- _]]. apply toLowerUnit_idempotent.
Qed.

(** ** What the keyword stage can match *)

(** The keyword stage compares the stored keywords of an article with the
    extracted ones for equality.  So it can select an article only through
    a stored keyword that is in lower case, holds no white space, is longer
    than two code units and is not a stop word: a keyword stored as
    "Docker", "ci" or "rest api" can never make the keyword stage find its
    article. *)
Theorem keyword_stage_matches_only_plain_keywords
    (textMatch : string -> string -> bool) (query : string) (a : Article)
    (Hmatch :
       accepts textMatch
               (q_filter (keywordQuery (extractKeywords query))) a = true) :
  exists k,
    In k (keywords a) /\ In k (extractKeywords query)
    /\ Js.toLowerCase k = k /\ noWhiteSpace k = true
    /\ 2 < String.length k /\ ~ In k stopWords.
Proof.
  simpl in Hmatch. apply existsb_exists in Hmatch.
  destruct Hmatch as [k [Hk Hin]]. apply arrayIncludes_In in Hin.
  exists k. split; [exact Hk|]. split; [exact Hin|].
  split; [now apply extractKeywords_lowercase in Hin|].
  destruct (extractKeywords_In _ _ Hin) as [Ht Hkeep].
  split; [exact (splitRuns_noWhiteSpace false _ k Ht)|].
  now apply keepWord_spec.
Qed.

Lemma keyword_stage_matches_only_plain_keywords_witness :
  exists k,
    In k ["docker"; "CI"] /\ In k (extractKeywords "Deploy with Docker")
    /\ Js.toLowerCase k = k /\ noWhiteSpace k = true
    /\ 2 < String.length k /\ ~ In k stopWords.
Proof.
  apply (keyword_stage_matches_only_plain_keywords
           (fun _ _ => false) "Deploy with Docker"
           (mkArticle "1" "Deploying" "Use Docker." ["docker"; "CI"]
                      "DevOps" "Admin" 0 0)).
  reflexivity.
Defined.

Lemma overlaps_nothing (textMatch : string -> string -> bool)
    (column : string) (a : Article) :
  accepts textMatch (Overlaps column []) a = false.
Proof.
  simpl. induction (columnArray column a) as [|k l IH]; [reflexivity | exact IH].
Qed.

Lemma filter_none {A : Type} (f : A -> bool) (l : list A) :
  (forall x, f x = false) -> filter f l = [].
Proof.
  intros H. induction l as [|x l IH]; simpl; [reflexivity|]. now rewrite H.
Qed.

(** A query from which no keyword survives (only stop words and words of
    one or two code units) is answered by the title search alone: against
    the [articles] table the keyword stage selects nothing and the result
    is what the full-text stage selects. *)
Theorem no_keywords_means_title_search_only
    (textMatch : string -> string -> bool)
    (table : list Article) (query : string)
    (Hnone : extractKeywords query = []) :
  selectRows textMatch (keywordQuery (extractKeywords query)) table = []
  /\ searchArticles (list Article) (tableAwait textMatch) query table
     = (Fulfilled (selectRows textMatch (textQuery query) table), table).
Proof.
  assert (E : selectRows textMatch (keywordQuery (extractKeywords query)) table
              = []).
  { rewrite Hnone. unfold selectRows. cbn [q_filter keywordQuery q_order snd].
    rewrite (filter_none _ table); [now destruct (q_limit _)|].
    intros x. apply overlaps_nothing. }
  split; [exact E|].
  unfold searchArticles, bind, tableAwait, ret. cbn [data]. now rewrite E.
Qed.

Lemma no_keywords_means_title_search_only_witness :
  selectRows (fun _ _ => true) (keywordQuery (extractKeywords "how to"))
             [mkArticle "1" "How to deploy" "Use Docker." ["how"; "to"]
                        "DevOps" "Admin" 0 0]
  = []
  /\ searchArticles (list Article) (tableAwait (fun _ _ => true)) "how to"
       [mkArticle "1" "How to deploy" "Use Docker." ["how"; "to"]
                  "DevOps" "Admin" 0 0]
     = (Fulfilled
          (selectRows (fun _ _ => true) (textQuery "how to")
             [mkArticle "1" "How to deploy" "Use Docker." ["how"; "to"]
                        "DevOps" "Admin" 0 0]),
        [mkArticle "1" "How to deploy" "Use Docker." ["how"; "to"]
                   "DevOps" "Admin" 0 0]).
Proof.
  apply (no_keywords_means_title_search_only (fun _ _ => true)).
  reflexivity.
Defined.

(** ** White space around the query *)

Lemma toLowerCase_trimStart (s : string) :
  Js.toLowerCase (Js.trimStart s) = Js.trimStart (Js.toLowerCase s).
Proof.
  induction s as [|c s IH]; simpl; [reflexivity|].
  rewrite isWhiteSpace_toLowerUnit.
  destruct (Js.isWhiteSpace c); [exact IH | reflexivity].
Qed.

Lemma toLowerCase_trimEnd (s : string) :
  Js.toLowerCase (Js.trimEnd s) = Js.trimEnd (Js.toLowerCase s).
Proof.
  induction s as [|c s IH]; simpl; [reflexivity|].
  rewrite <- IH, isWhiteSpace_toLowerUnit.
  destruct (Js.trimEnd s) as [|x r]; simpl; [|reflexivity].
  now destruct (Js.isWhiteSpace c).
Qed.

Lemma toLowerCase_trim (s : string) :
  Js.toLowerCase (Js.trim s) = Js.trim (Js.toLowerCase s).
Proof. unfold Js.trim. now rewrite toLowerCase_trimEnd, toLowerCase_trimStart. Qed.

Lemma trimEnd_cons_nonspace (c : ascii) (r : string) :
  Js.isWhiteSpace c = false -> Js.trimEnd (String c r) = String c (Js.trimEnd r).
Proof. intros H. simpl. rewrite H. now destruct (Js.trimEnd r). Qed.

Lemma splitRuns_blank (s : string) :
  allWhiteSpace s = true -> Js.splitRuns true s = [EmptyString].
Proof.
  unfold allWhiteSpace. induction s as [|c s IH]; simpl; [reflexivity|].
  rewrite andb_true_iff. intros [Hc Hs]. rewrite Hc. now apply IH.
Qed.

Lemma splitRuns_trimEnd (b : bool) (s : string) :
  Js.splitRuns b s = Js.splitRuns b (Js.trimEnd s)
  \/ Js.splitRuns b s = (Js.splitRuns b (Js.trimEnd s) ++ [EmptyString])%list.
Proof.
  revert b. induction s as [|c s IH]; intros b; [now left|].
  destruct (Js.isWhiteSpace c) eqn:Ec.
  - destruct (Js.trimEnd s) as [|x r] eqn:Es.
    + assert (Et : Js.trimEnd (String c s) = EmptyString).
      { simpl. now rewrite Es, Ec. }
      rewrite Et. apply trimEnd_empty in Es.
      simpl. rewrite Ec, (splitRuns_blank s Es).
      destruct b; [now left | now right].
    + assert (Et : Js.trimEnd (String c s) = String c (String x r)).
      { simpl. now rewrite Es. }
      rewrite Et. specialize (IH true). simpl. rewrite Ec.
      destruct b, IH as [IH|IH]; rewrite IH; [now left | now right | now left | now right].
  - rewrite (trimEnd_cons_nonspace c s Ec). simpl. rewrite Ec.
    specialize (IH false).
    pose proof (splitRuns_nonempty false (Js.trimEnd s)) as Hne.
    destruct (Js.splitRuns false (Js.trimEnd s)) as [|p ps]; [congruence|].
    destruct IH as [IH|IH]; rewrite IH; [now left | now right].
Qed.

Lemma keepWord_empty : keepWord EmptyString = false.
Proof. reflexivity. Qed.

Lemma kept_trimEnd (b : bool) (s : string) :
  filter keepWord (Js.splitRuns b (Js.trimEnd s))
  = filter keepWord (Js.splitRuns b s).
Proof.
  destruct (splitRuns_trimEnd b s) as [E|E]; rewrite E; [reflexivity|].
  rewrite filter_app. simpl. now rewrite app_nil_r.
Qed.

Lemma kept_inRun (s : string) :
  filter keepWord (Js.splitRuns true s) = filter keepWord (Js.splitRuns false s).
Proof. destruct s as [|c s]; simpl; [reflexivity|]. now destruct (Js.isWhiteSpace c). Qed.

Lemma kept_trimStart (s : string) :
  filter keepWord (Js.splitRuns false (Js.trimStart s))
  = filter keepWord (Js.splitRuns false s).
Proof.
  induction s as [|c s IH]; [reflexivity|].
  simpl. destruct (Js.isWhiteSpace c) eqn:Ec.
  - rewrite IH. cbn [filter]. rewrite keepWord_empty. symmetry. apply kept_inRun.
  - simpl. now rewrite Ec.
Qed.

(** The extracted keywords do not depend on the case of the query nor on
    white space before or after it: the lower-cased query and the trimmed
    query give the same keywords as the query itself. *)
Theorem extractKeywords_ignores_case_and_outer_space (query : string) :
  extractKeywords (Js.toLowerCase query) = extractKeywords query
  /\ extractKeywords (Js.trim query) = extractKeywords query.
Proof.
  unfold extractKeywords, Js.splitWhitespace. split.
  - now rewrite toLowerCase_idempotent.
  - rewrite toLowerCase_trim. unfold Js.trim.
    now rewrite kept_trimEnd, kept_trimStart.
Qed.

(** ** More on the chat session *)

Lemma paired_snoc_user (u : ChatMessage) (turns : list ChatMessage) :
  userTurn u = true ->
  (paired false turns = true -> paired true (turns ++ [u])%list = true)
  /\ (forall x, paired false (x :: turns) = true ->
                paired true (x :: turns ++ [u])%list = true).
Proof.
  intros Hu. induction turns as [|y t [IH1 IH2]].
  - split; [intros _; simpl; now rewrite Hu | simpl; discriminate].
  - split; [exact (IH2 y)|].
    intros x H. cbn [paired app] in *.
    apply andb_true_iff in H. destruct H as [H1 H2].
    rewrite H1. simpl. now apply IH1.
Qed.

Lemma paired_snoc_bot (b : ChatMessage) (turns : list ChatMessage) :
  isBot b = true ->
  (paired true turns = true -> paired false (turns ++ [b])%list = true)
  /\ (forall x, paired true (x :: turns) = true ->
                paired false (x :: turns ++ [b])%list = true).
Proof.
  intros Hb. induction turns as [|y t [IH1 IH2]].
  - split; [simpl; discriminate|].
    intros x H. simpl in *. now rewrite H, Hb.
  - split; [exact (IH2 y)|].
    intros x H. cbn [paired app] in *.
    apply andb_true_iff in H. destruct H as [H1 H2].
    rewrite H1. simpl. now apply IH1.
Qed.

Section SessionInvariants.

Variable World : Type.
Variable await : Query -> M World PostgrestResponse.
Variable dateNow : World -> Z * World.

(** The turn log only grows: whatever events occur, the log before them
    is a prefix of the log after them. *)
Theorem turn_log_is_append_only (events : list Event) (s : Session World) :
  exists added : list ChatMessage,
    messages (view (run World await dateNow events s)) = (messages (view s) ++ added)%list.
Proof.
  unfold run. revert s. induction events as [|e events IH]; intros s; simpl.
  - exists []. now rewrite app_nil_r.
  - destruct (IH (step World await dateNow e s)) as [added E]. rewrite E. clear E IH.
    destruct e; simpl.
    + now exists added.
    + destruct (sendGuard (view s)); [now exists added|].
      destruct (sendPrefix_spec World dateNow (view s) (world s))
        as [m [w' [E _]]].
      rewrite E. simpl. exists (m :: added). now rewrite <- app_assoc.
    + destruct (pending s) as [|q rest]; [now exists added|].
      destruct (sendCompletion_spec World await dateNow q (view s) (world s))
        as [m [w' [E _]]].
      rewrite E. simpl. exists (m :: added). now rewrite <- app_assoc.
Qed.

Lemma step_wellFormed (greeting : ChatMessage) (e : Event) (s : Session World) :
  wellFormed greeting s -> wellFormed greeting (step World await dateNow e s).
Proof.
  intros [turns [Hm [Hp Hf]]]. destruct e; simpl.
  - exists turns. now repeat split.
  - destruct (sendGuard (view s)) eqn:G; [now exists turns|].
    destruct (sendPrefix_spec World dateNow (view s) (world s))
      as [m [w' [E [_ [Hu _]]]]].
    rewrite E. simpl.
    unfold sendGuard in G. apply orb_false_iff in G. destruct G as [_ G].
    destruct Hf as [[_ Hq]|[Hl _]]; [|congruence].
    exists (turns ++ [m])%list. rewrite Hm, Hq, G in *. split; [reflexivity|].
    split.
    + apply paired_snoc_user; [unfold userTurn; now rewrite Hu | exact Hp].
    + right. split; [reflexivity|]. now eexists.
  - destruct Hf as [[Hl Hq]|[Hl [q Hq]]]; rewrite Hq.
    + exists turns. repeat split; auto.
    + destruct (sendCompletion_spec World await dateNow q (view s) (world s))
        as [m [w' [E [Hb _]]]].
      rewrite E. simpl. exists (turns ++ [m])%list. rewrite Hm, Hl in *.
      split; [reflexivity|]. split.
      * now apply paired_snoc_bot.
      * now left.
Qed.

Lemma run_wellFormed (greeting : ChatMessage) (events : list Event)
    (s : Session World) :
  wellFormed greeting s -> wellFormed greeting (run World await dateNow events s).
Proof.
  unfold run. revert s. induction events as [|e events IH]; intros s H; simpl.
  - exact H.
  - apply IH. now apply step_wellFormed.
Qed.

Lemma mount_wellFormed (greeting : ChatMessage) (w : World) :
  wellFormed greeting (mount World greeting w).
Proof. exists []. simpl. split; [reflexivity|]. split; [reflexivity | now left]. Qed.

(** In every session reached from a mounted component the loading flag is
    raised exactly when a search is pending, and settling that search
    lowers it: the flag is never left raised with nothing to lower it. *)
Theorem loading_flag_tracks_pending_search
    (events : list Event) (greeting : ChatMessage) (w : World) :
  let s := run World await dateNow events (mount World greeting w) in
  (isLoading (view s) = true <-> exists q, pending s = [q])
  /\ (isLoading (view s) = false <-> pending s = [])
  /\ isLoading (view (step World await dateNow Settle s)) = false
  /\ pending (step World await dateNow Settle s) = [].
Proof.
  cbv zeta.
  pose proof (run_wellFormed greeting events _ (mount_wellFormed greeting w))
    as [turns [_ [_ Hf]]].
  set (s := run World await dateNow events (mount World greeting w)) in *.
  destruct Hf as [[Hl Hq]|[Hl [q Hq]]].
  - rewrite Hl, Hq. repeat split; try congruence.
    + intros [q Hq']. discriminate.
    + simpl. now rewrite Hq.
    + simpl. now rewrite Hq.
  - rewrite Hl, Hq. repeat split; try congruence; try discriminate.
    + intros _. now exists q.
    + simpl. rewrite Hq.
      destruct (sendCompletion_spec World await dateNow q (view s) (world s))
        as [m [w' [E _]]].
      now rewrite E.
    + simpl. rewrite Hq.
      destruct (sendCompletion_spec World await dateNow q (view s) (world s))
        as [m [w' [E _]]].
      now rewrite E.
Qed.

(** In every session reached from a mounted component the log is the
    greeting followed by pairs of a user turn and the bot turn answering
    it; only while a search is pending does the last user turn stand
    alone. *)
Theorem turns_come_in_pairs
    (events : list Event) (greeting : ChatMessage) (w : World) :
  let s := run World await dateNow events (mount World greeting w) in
  exists turns,
    messages (view s) = greeting :: turns
    /\ paired (isLoading (view s)) turns = true.
Proof.
  cbv zeta.
  destruct (run_wellFormed greeting events _ (mount_wellFormed greeting w))
    as [turns [Hm [Hp _]]].
  now exists turns.
Qed.

End SessionInvariants.

Section SessionRuns.

Variable World : Type.
Variable await : Query -> M World PostgrestResponse.
Variable dateNow : World -> Z * World.

(** Against a store that answers every query, be it with rows or with an
    error, the search always fulfils, so the completion never appends the
    apology: the turn it appends is the summary of the rows the search
    returned. *)
Theorem answering_store_never_gets_apology
    (Hanswers : forall q w, exists r w', await q w = (Fulfilled r, w'))
    (captured : string) (c : Component) (w : World) :
  (exists rows w',
      searchArticles World await captured w = (Fulfilled rows, w'))
  /\ exists m,
       messages (fst (sendCompletion World await dateNow captured c w))
       = (messages c ++ [m])%list
       /\ msg_content m <> errorMessageText
       /\ exists rows w',
            searchArticles World await captured w = (Fulfilled rows, w')
            /\ msg_content m = generateSummary rows captured.
Proof.
  assert (Hs : exists rows w',
             searchArticles World await captured w = (Fulfilled rows, w')).
  { unfold searchArticles, bind, ret.
    destruct (Hanswers (keywordQuery (extractKeywords captured)) w)
      as [r1 [w1 E1]].
    rewrite E1. destruct (nullOrEmpty (data r1)).
    - destruct (Hanswers (textQuery captured) w1) as [r2 [w2 E2]].
      rewrite E2. now eexists; eexists.
    - now eexists; eexists. }
  split; [exact Hs|].
  destruct Hs as [rows [w' Hs]].
  destruct (sendCompletion_spec World await dateNow captured c w)
    as [m [w'' [E [_ Hm]]]].
  rewrite Hs in Hm. destruct Hm as [Hm _].
  exists m. rewrite E. split; [reflexivity|].
  split; [rewrite Hm; apply generateSummary_not_apology|].
  now exists rows, w'.
Qed.


(** A key press changes the session only when the key is Enter, Shift is
    not held, the input is not blank and no search is in flight; it then
    does what the send button does, and the default action of the key is
    prevented. *)
Theorem key_press_acts_only_on_plain_enter
    (key : string) (shiftKey : bool) (s : Session World)
    (Hchanged : snd (handleKeyPress World await dateNow key shiftKey s) <> s) :
  key = "Enter" /\ shiftKey = false
  /\ allWhiteSpace (inputValue (view s)) = false
  /\ isLoading (view s) = false
  /\ handleKeyPress World await dateNow key shiftKey s
     = (true, step World await dateNow Submit s).
Proof.
  unfold handleKeyPress in *.
  destruct (String.eqb key "Enter") eqn:Ek; [|now contradiction Hchanged].
  destruct shiftKey; [now contradiction Hchanged|].
  apply String.eqb_eq in Ek. cbn [andb negb snd] in *.
  split; [exact Ek|]. split; [reflexivity|].
  assert (G : sendGuard (view s) = false).
  { destruct (sendGuard (view s)) eqn:G; [|reflexivity].
    exfalso. apply Hchanged. simpl. now rewrite G. }
  unfold sendGuard in G. apply orb_false_iff in G. destruct G as [G1 G2].
  split; [|split; [exact G2 | reflexivity]].
  destruct (allWhiteSpace (inputValue (view s))) eqn:Ea; [|reflexivity].
  apply trim_empty in Ea. rewrite Ea in G1. discriminate.
Qed.

End SessionRuns.

(** *** Concrete runs *)

Lemma answering_store_never_gets_apology_witness :
  (exists rows w',
      searchArticles (Timed (list Article))
        (timedAwait (tableAwait (fun _ _ => false))) "reset vpn" (0%Z, [])
      = (Fulfilled rows, w'))
  /\ exists m,
       messages
         (fst (sendCompletion (Timed (list Article))
                 (timedAwait (tableAwait (fun _ _ => false))) timedNow
                 "reset vpn" (mkComponent [] EmptyString true) (0%Z, [])))
       = ([] ++ [m])%list
       /\ msg_content m <> errorMessageText
       /\ exists rows w',
            searchArticles (Timed (list Article))
              (timedAwait (tableAwait (fun _ _ => false))) "reset vpn"
              (0%Z, [])
            = (Fulfilled rows, w')
            /\ msg_content m = generateSummary rows "reset vpn".
Proof.
  apply (answering_store_never_gets_apology (Timed (list Article))
           (timedAwait (tableAwait (fun _ _ => false))) timedNow).
  intros q w. eexists. eexists. reflexivity.
Defined.


Lemma key_press_acts_only_on_plain_enter_witness :
  let s :=
    mkSession (mkComponent [] "reset vpn" false) []
              ((0%Z, []) : Timed Script) in
  "Enter" = "Enter" /\ false = false
  /\ allWhiteSpace (inputValue (view s)) = false
  /\ isLoading (view s) = false
  /\ handleKeyPress (Timed Script) (timedAwait scriptedAwait) timedNow
       "Enter" false s
     = (true, step (Timed Script) (timedAwait scriptedAwait) timedNow Submit s).
Proof.
  apply (key_press_acts_only_on_plain_enter (Timed Script)
           (timedAwait scriptedAwait) timedNow "Enter" false).
  cbv. discriminate.
Defined.

Lemma C8_store_failure_gets_no_results_turn_witness :
  searchArticles (Timed Script) (timedAwait scriptedAwait) "reset vpn"
    (0%Z, [Fulfilled (mkResponse None (Some "connection refused"));
           Fulfilled (mkResponse None (Some "connection refused"))])
  = (Fulfilled [], (0%Z, []))
  /\ exists m,
       messages
         (fst (sendCompletion (Timed Script) (timedAwait scriptedAwait)
                 timedNow "reset vpn" (mkComponent [] EmptyString true)
                 (0%Z, [Fulfilled (mkResponse None (Some "connection refused"));
                        Fulfilled (mkResponse None
                                               (Some "connection refused"))])))
       = ([] ++ [m])%list
       /\ isBot m = true
       /\ msg_content m = noResultsMessage
       /\ msg_content m <> errorMessageText.
Proof.
  destruct (C8_store_failure_gets_no_results_turn (Timed Script)
              (timedAwait scriptedAwait) timedNow "reset vpn"
              (mkComponent [] EmptyString true)
              (0%Z, [Fulfilled (mkResponse None (Some "connection refused"));
                     Fulfilled (mkResponse None (Some "connection refused"))]))
    as [_ [_ [_ [_ H]]]].
  apply (H "connection refused" "connection refused"
           (0%Z, [Fulfilled (mkResponse None (Some "connection refused"))])
           (0%Z, [])); reflexivity.
Defined.

Lemma C9_blocked_submit_is_noop_witness :
  handleSendMessage (Timed Script) (timedAwait scriptedAwait) timedNow
    (mkComponent [] "   " false) (0%Z, [])
  = (Fulfilled (mkComponent [] "   " false), (0%Z, []))
  /\ step (Timed Script) (timedAwait scriptedAwait) timedNow Submit
       (mkSession (mkComponent [] "next" true) ["reset vpn"] (0%Z, []))
     = mkSession (mkComponent [] "next" true) ["reset vpn"] (0%Z, []).
Proof.
  destruct (C9_blocked_submit_is_noop (Timed Script)
              (timedAwait scriptedAwait) timedNow) as [H1 [H2 _]].
  split.
  - apply H1. left. reflexivity.
  - apply H2. right. reflexivity.
Defined.

(** ** [trim] *)

Lemma trimStart_shape (s : string) :
  Js.trimStart s = EmptyString
  \/ exists c r, Js.trimStart s = String c r /\ Js.isWhiteSpace c = false.
Proof.
  induction s as [|c s IH]; simpl; [now left|].
  destruct (Js.isWhiteSpace c) eqn:Ec; [exact IH|].
  right. now exists c, s.
Qed.

Lemma trimEnd_idempotent (s : string) :
  Js.trimEnd (Js.trimEnd s) = Js.trimEnd s.
Proof.
  induction s as [|c s IH]; simpl; [reflexivity|].
  destruct (Js.trimEnd s) as [|x r] eqn:Es.
  - destruct (Js.isWhiteSpace c) eqn:Ec; simpl; [reflexivity | now rewrite Ec].
  - change (Js.trimEnd (String c (String x r))) with
      (match Js.trimEnd (String x r) with
       | EmptyString =>
           if Js.isWhiteSpace c then EmptyString else String c EmptyString
       | r' => String c r'
       end).
    now rewrite IH.
Qed.

Lemma trim_idempotent (s : string) : Js.trim (Js.trim s) = Js.trim s.
Proof.
  unfold Js.trim.
  destruct (trimStart_shape s) as [E|[c [r [E Hc]]]]; rewrite E.
  - reflexivity.
  - rewrite (trimEnd_cons_nonspace c r Hc). simpl Js.trimStart. rewrite Hc.
    rewrite <- (trimEnd_cons_nonspace c r Hc). apply trimEnd_idempotent.
Qed.

Lemma trimStart_units (s : string) (c : ascii) :
  In c (units (Js.trimStart s)) -> In c (units s).
Proof.
  induction s as [|x s IH]; simpl; [tauto|].
  destruct (Js.isWhiteSpace x); simpl; [intros H; right; now apply IH | tauto].
Qed.

Lemma trimEnd_units (s : string) (c : ascii) :
  In c (units (Js.trimEnd s)) -> In c (units s).
Proof.
  induction s as [|x s IH]; simpl; [tauto|].
  destruct (Js.trimEnd s) as [|y r].
  - destruct (Js.isWhiteSpace x); simpl; tauto.
  - simpl in *. tauto.
Qed.

Lemma trim_units (s : string) (c : ascii) :
  In c (units (Js.trim s)) -> In c (units s).
Proof. unfold Js.trim. intros H. now apply trimStart_units, trimEnd_units. Qed.

Lemma trim_lead (lead s : string) :
  allWhiteSpace lead = true -> Js.trim (lead ++ s) = Js.trim s.
Proof.
  unfold Js.trim, allWhiteSpace. induction lead as [|c lead IH]; simpl;
    [reflexivity|].
  rewrite andb_true_iff. intros [Hc Hl]. rewrite Hc. now apply IH.
Qed.

(** ** [split(',')] *)

Lemma splitOn_nonempty (sep : ascii) (s : string) : Js.splitOn sep s <> [].
Proof.
  induction s as [|c s IH]; simpl; [discriminate|].
  destruct (Ascii.eqb c sep); [discriminate|].
  destruct (Js.splitOn sep s); discriminate.
Qed.

Lemma splitOn_no_separator (sep : ascii) (s t : string) :
  In t (Js.splitOn sep s) -> ~ In sep (units t).
Proof.
  revert t. induction s as [|c s IH]; intros t; simpl.
  - intros [<-|[]]. simpl. tauto.
  - destruct (Ascii.eqb c sep) eqn:Ec.
    + intros [<-|H]; [simpl; tauto | now apply IH].
    + apply Ascii.eqb_neq in Ec.
      destruct (Js.splitOn sep s) as [|piece pieces].
      * intros [<-|[]]. simpl. intuition.
      * intros [<-|H].
        -- simpl. intros [E|E]; [congruence|]. revert E. apply IH. now left.
        -- apply IH. now right.
Qed.

Lemma splitOn_plain (sep : ascii) (s : string) :
  ~ In sep (units s) -> Js.splitOn sep s = [s].
Proof.
  induction s as [|c s IH]; simpl; [reflexivity|]. intros H.
  destruct (Ascii.eqb c sep) eqn:Ec.
  - apply Ascii.eqb_eq in Ec. tauto.
  - rewrite IH; [reflexivity | tauto].
Qed.

Lemma splitOn_app (sep : ascii) (s r : string) :
  ~ In sep (units s) ->
  Js.splitOn sep (s ++ String sep r) = s :: Js.splitOn sep r.
Proof.
  induction s as [|c s IH]; simpl; intros H.
  - now rewrite Ascii.eqb_refl.
  - destruct (Ascii.eqb c sep) eqn:Ec.
    + apply Ascii.eqb_eq in Ec. tauto.
    + rewrite IH; [reflexivity | tauto].
Qed.

Lemma splitOn_trailing (sep : ascii) (s : string) :
  Js.splitOn sep (s ++ String sep EmptyString)
  = (Js.splitOn sep s ++ [EmptyString])%list.
Proof.
  induction s as [|c s IH]; simpl.
  - now rewrite Ascii.eqb_refl.
  - destruct (Ascii.eqb c sep); rewrite IH; [reflexivity|].
    pose proof (splitOn_nonempty sep s) as Hne.
    destruct (Js.splitOn sep s); [congruence | reflexivity].
Qed.

(** ** The keywords field of the editor *)

Lemma parseKeywords_In (value k : string) :
  In k (AdminPanel.parseKeywords value) ->
  k <> EmptyString
  /\ exists piece, In piece (Js.splitOn ","%char value) /\ k = Js.trim piece.
Proof.
  unfold AdminPanel.parseKeywords. intros H.
  apply filter_In in H. destruct H as [H Hlen].
  apply in_map_iff in H. destruct H as [piece [<- Hp]].
  split; [|now exists piece].
  intros E. rewrite E in Hlen. discriminate.
Qed.

Lemma parseKeywords_clean (value : string) :
  Forall cleanKeyword (AdminPanel.parseKeywords value).
Proof.
  apply Forall_forall. intros k Hk.
  destruct (parseKeywords_In value k Hk) as [Hne [piece [Hp ->]]].
  split; [exact Hne|]. split; [apply trim_idempotent|].
  intros Hc. apply trim_units in Hc.
  exact (splitOn_no_separator _ _ _ Hp Hc).
Qed.

Lemma join_cons2 (sep k k' : string) (rest : list string) :
  Js.join sep (k :: k' :: rest) = k ++ sep ++ Js.join sep (k' :: rest).
Proof. reflexivity. Qed.

Lemma trimmed_split_of_join (ks : list string) :
  Forall cleanKeyword ks -> ks <> [] ->
  forall lead : string,
    allWhiteSpace lead = true -> ~ In ","%char (units lead) ->
    map Js.trim (Js.splitOn ","%char (lead ++ Js.join ", " ks)) = ks.
Proof.
  induction 1 as [|k rest [Hne [Ht Hc]] Hrest IH]; intros Hnil lead Hl Hlc;
    [congruence|].
  destruct rest as [|k' rest'].
  - simpl Js.join. rewrite splitOn_plain.
    + simpl. now rewrite trim_lead, Ht.
    + rewrite units_append, in_app_iff. tauto.
  - rewrite join_cons2.
    change (", " ++ Js.join ", " (k' :: rest'))
      with (String ","%char (" " ++ Js.join ", " (k' :: rest'))).
    rewrite <- append_assoc, splitOn_app.
    + cbn [map]. rewrite trim_lead, Ht by exact Hl. f_equal.
      apply IH; [discriminate | reflexivity|].
      simpl. intros [E|[]]. discriminate.
    + rewrite units_append, in_app_iff. tauto.
Qed.

Lemma parseKeywords_join (ks : list string) :
  Forall cleanKeyword ks -> AdminPanel.parseKeywords (Js.join ", " ks) = ks.
Proof.
  intros Hclean.
  unfold AdminPanel.parseKeywords. destruct ks as [|k rest]; [reflexivity|].
  change (Js.join ", " (k :: rest))
    with (EmptyString ++ Js.join ", " (k :: rest)).
  rewrite (trimmed_split_of_join (k :: rest) Hclean);
    [|discriminate | reflexivity | simpl; tauto].
  clear -Hclean. induction Hclean as [|x l [Hne _] _ IH]; [reflexivity|].
  simpl. rewrite IH. destruct x; [congruence | reflexivity].
Qed.

(** Every keyword the editor derives from the text of the keywords field
    is non-empty, has no white space at either end and holds no comma. *)
Theorem parsed_keywords_are_clean (value : string) :
  Forall cleanKeyword (AdminPanel.parseKeywords value).
Proof. apply parseKeywords_clean. Qed.

(** Round trip of the keywords field: a list of clean keywords, shown in
    the field joined by a comma and a space, is read back as the same
    list. *)
Theorem keywords_field_round_trip
    (ks : list string) (Hclean : Forall cleanKeyword ks) :
  AdminPanel.parseKeywords (Js.join ", " ks) = ks.
Proof. now apply parseKeywords_join. Qed.

Lemma keywords_field_round_trip_witness :
  AdminPanel.parseKeywords (Js.join ", " ["docker"; "rest api"; "CI"])
  = ["docker"; "rest api"; "CI"].
Proof.
  apply (keywords_field_round_trip ["docker"; "rest api"; "CI"]).
  repeat constructor; try discriminate; simpl; intuition discriminate.
Defined.

Lemma parseKeywords_trailing_comma (value : string) :
  AdminPanel.parseKeywords (value ++ ",") = AdminPanel.parseKeywords value.
Proof.
  unfold AdminPanel.parseKeywords.
  rewrite (splitOn_trailing ","%char value), map_app, filter_app.
  simpl. now rewrite app_nil_r.
Qed.

(** What typing in the keywords field does: the text shown afterwards is
    already in normal form, so reading it back changes nothing; and a
    comma typed at the end of the field is dropped at once, the editor
    being in the same state as before the comma. *)
Theorem keywords_field_normalises_typing
    (value : string) (p : AdminPanel.Panel) :
  let p' := AdminPanel.handleKeywordsChange value p in
  AdminPanel.handleKeywordsChange (AdminPanel.keywordsFieldValue p') p = p'
  /\ AdminPanel.handleKeywordsChange (value ++ ",") p = p'
  /\ (AdminPanel.editingArticle p <> None ->
      AdminPanel.keywordsFieldValue p'
      = Js.join ", " (AdminPanel.parseKeywords value)).
Proof.
  cbv zeta. unfold AdminPanel.handleKeywordsChange.
  rewrite parseKeywords_trailing_comma.
  split; [|split; [reflexivity|]].
  - unfold AdminPanel.keywordsFieldValue.
    destruct (AdminPanel.editingArticle p) as [d|]; simpl; [|reflexivity].
    now rewrite (parseKeywords_join _ (parseKeywords_clean value)).
  - destruct (AdminPanel.editingArticle p) as [d|]; [reflexivity | congruence].
Qed.

(** ** The handlers of the editor *)

Lemma truthy_spec (o : option string) :
  AdminPanel.truthy o = true <-> exists s, o = Some s /\ s <> EmptyString.
Proof.
  destruct o as [s|]; simpl.
  - rewrite negb_true_iff. split.
    + intros H. exists s. split; [reflexivity|].
      intros E. rewrite E in H. discriminate.
    + intros [s' [E H]]. injection E as <-. now apply String.eqb_neq.
  - split; [discriminate | intros [s [E _]]; discriminate].
Qed.

Lemma orString_nonempty (o : option string) (d : string) :
  d <> EmptyString -> AdminPanel.orString o d <> EmptyString.
Proof.
  intros Hd. destruct o as [s|]; simpl; [|exact Hd].
  destruct (String.eqb s EmptyString) eqn:E; [exact Hd|].
  now apply String.eqb_neq.
Qed.

(** A request to save always carries a non-empty title, content, category
    and author, the title and the content being those of the draft; it is
    an update of the row named by the draft's id when that id is present
    and non-empty, and an insertion of a single row otherwise. *)
Theorem save_request_is_complete
    (editing : option AdminPanel.Draft) (request : AdminPanel.Request)
    (Hreq : AdminPanel.saveRequest editing = Some request) :
  exists (d : AdminPanel.Draft) (values : AdminPanel.ArticleData),
    editing = Some d
    /\ AdminPanel.d_title d = Some (AdminPanel.data_title values)
    /\ AdminPanel.d_content d = Some (AdminPanel.data_content values)
    /\ AdminPanel.data_title values <> EmptyString
    /\ AdminPanel.data_content values <> EmptyString
    /\ AdminPanel.data_category values <> EmptyString
    /\ AdminPanel.data_author values <> EmptyString
    /\ ((exists i, AdminPanel.d_id d = Some i /\ i <> EmptyString
                   /\ request = AdminPanel.Update "articles" values "id" i)
        \/ (AdminPanel.truthy (AdminPanel.d_id d) = false
            /\ request = AdminPanel.Insert "articles" [values])).
Proof.
  unfold AdminPanel.saveRequest in Hreq.
  destruct editing as [d|]; [|discriminate].
  destruct (AdminPanel.truthy (AdminPanel.d_title d)) eqn:Et; [|discriminate].
  destruct (AdminPanel.truthy (AdminPanel.d_content d)) eqn:Ec; [|discriminate].
  apply truthy_spec in Et, Ec.
  destruct Et as [t [Et Ht]]. destruct Ec as [c [Ec Hc]].
  cbn [negb orb] in Hreq.
  assert (Eot : AdminPanel.orString (AdminPanel.d_title d) EmptyString = t).
  { rewrite Et. simpl. apply String.eqb_neq in Ht. now rewrite Ht. }
  assert (Eoc : AdminPanel.orString (AdminPanel.d_content d) EmptyString = c).
  { rewrite Ec. simpl. apply String.eqb_neq in Hc. now rewrite Hc. }
  assert (Hcat : AdminPanel.orString (AdminPanel.d_category d) "General"
                 <> EmptyString) by (apply orString_nonempty; discriminate).
  assert (Haut : AdminPanel.orString (AdminPanel.d_author d) "Admin"
                 <> EmptyString) by (apply orString_nonempty; discriminate).
  rewrite Eot, Eoc in Hreq.
  exists d.
  exists (AdminPanel.mkArticleData t c
            (AdminPanel.orNoKeywords (AdminPanel.d_keywords d))
            (AdminPanel.orString (AdminPanel.d_category d) "General")
            (AdminPanel.orString (AdminPanel.d_author d) "Admin")).
  cbn [AdminPanel.data_title AdminPanel.data_content
       AdminPanel.data_category AdminPanel.data_author].
  split; [reflexivity|].
  split; [exact Et|]. split; [exact Ec|]. split; [exact Ht|].
  split; [exact Hc|]. split; [exact Hcat|]. split; [exact Haut|].
  destruct (AdminPanel.truthy (AdminPanel.d_id d)) eqn:Ei.
  - injection Hreq as <-. apply truthy_spec in Ei. destruct Ei as [i [Ei Hi]].
    left. exists i. split; [exact Ei|]. split; [exact Hi|].
    rewrite Ei. simpl. apply String.eqb_neq in Hi. now rewrite Hi.
  - injection Hreq as <-. right. now split.
Qed.

Lemma save_request_is_complete_witness :
  exists (d : AdminPanel.Draft) (values : AdminPanel.ArticleData),
    Some (AdminPanel.mkDraft None (Some "VPN") (Some "Use the client.")
                             None (Some EmptyString) None None None)
    = Some d
    /\ AdminPanel.d_title d = Some (AdminPanel.data_title values)
    /\ AdminPanel.d_content d = Some (AdminPanel.data_content values)
    /\ AdminPanel.data_title values <> EmptyString
    /\ AdminPanel.data_content values <> EmptyString
    /\ AdminPanel.data_category values <> EmptyString
    /\ AdminPanel.data_author values <> EmptyString
    /\ ((exists i, AdminPanel.d_id d = Some i /\ i <> EmptyString
                   /\ AdminPanel.Insert "articles"
                        [AdminPanel.mkArticleData "VPN" "Use the client." []
                                                  "General" "Admin"]
                      = AdminPanel.Update "articles" values "id" i)
        \/ (AdminPanel.truthy (AdminPanel.d_id d) = false
            /\ AdminPanel.Insert "articles"
                 [AdminPanel.mkArticleData "VPN" "Use the client." []
                                           "General" "Admin"]
               = AdminPanel.Insert "articles" [values])).
Proof.
  apply (save_request_is_complete
           (Some (AdminPanel.mkDraft None (Some "VPN")
                    (Some "Use the client.") None (Some EmptyString)
                    None None None))).
  reflexivity.
Defined.

Section EditorProperties.

Variable World : Type.
Variable await : AdminPanel.Request -> M World PostgrestResponse.
Variable consoleError : string -> string -> World -> World.
Variable confirm : string -> World -> bool * World.

Lemma fetchArticles_spec (p : AdminPanel.Panel) (w : World) :
  exists (l : list Article) (w' : World),
    AdminPanel.fetchArticles World await consoleError p w
    = (AdminPanel.mkPanel l (AdminPanel.isEditing p)
                          (AdminPanel.editingArticle p) false, w')
    /\ match await (AdminPanel.SelectAll "articles" "*" ("created_at", false))
               w with
       | (Fulfilled r, _) =>
           match error r with
           | Some _ => l = AdminPanel.articles p
           | None => l = orEmpty (data r)
           end
       | (Rejected _, _) => l = AdminPanel.articles p
       end.
Proof.
  unfold AdminPanel.fetchArticles.
  destruct (await (AdminPanel.SelectAll "articles" "*" ("created_at", false)) w)
    as [[r|reason] w1].
  - destruct (error r) as [e|]; eexists; eexists; split; reflexivity.
  - eexists; eexists; split; reflexivity.
Qed.

(** [fetchArticles] lowers the loading flag on every path and never
    touches the editor.  It replaces the list only when the store answered
    without error; when the answer carries an error, or the request
    rejects, the list shown is the one shown before. *)
Theorem fetch_keeps_list_on_error (p : AdminPanel.Panel) (w : World) :
  let p' := fst (AdminPanel.fetchArticles World await consoleError p w) in
  AdminPanel.loading p' = false
  /\ AdminPanel.isEditing p' = AdminPanel.isEditing p
  /\ AdminPanel.editingArticle p' = AdminPanel.editingArticle p
  /\ match await (AdminPanel.SelectAll "articles" "*" ("created_at", false))
             w with
     | (Fulfilled r, _) =>
         match error r with
         | Some _ => AdminPanel.articles p' = AdminPanel.articles p
         | None => AdminPanel.articles p' = orEmpty (data r)
         end
     | (Rejected _, _) => AdminPanel.articles p' = AdminPanel.articles p
     end.
Proof.
  cbv zeta. destruct (fetchArticles_spec p w) as [l [w' [E H]]].
  rewrite E. cbn [fst AdminPanel.loading AdminPanel.isEditing
                  AdminPanel.editingArticle AdminPanel.articles].
  repeat (split; [reflexivity|]). exact H.
Qed.

(** When saving fails, because the store answers with an error or the
    request rejects, the panel is as before: the editor stays open with the
    draft intact.  When it succeeds the editor is closed, the draft
    discarded and the list fetched again. *)
Theorem save_failure_keeps_the_draft
    (p : AdminPanel.Panel) (w : World) (request : AdminPanel.Request)
    (Hreq : AdminPanel.saveRequest (AdminPanel.editingArticle p)
            = Some request) :
  let p' := fst (AdminPanel.handleSave World await consoleError p w) in
  match await request w with
  | (Fulfilled r, w1) =>
      match error r with
      | Some _ => p' = p
      | None =>
          AdminPanel.isEditing p' = false
          /\ AdminPanel.editingArticle p' = None
          /\ AdminPanel.loading p' = false
          /\ p' = fst (AdminPanel.fetchArticles World await consoleError
                         (AdminPanel.mkPanel (AdminPanel.articles p) false None
                                             (AdminPanel.loading p)) w1)
      end
  | (Rejected _, _) => p' = p
  end.
Proof.
  cbv zeta. unfold AdminPanel.handleSave. rewrite Hreq.
  destruct (await request w) as [[r|reason] w1]; [|reflexivity].
  destruct (error r) as [e|]; [reflexivity|].
  destruct (fetchArticles_spec
              (AdminPanel.setEditingArticle None
                 (AdminPanel.setIsEditing false p)) w1) as [l [w' [E _]]].
  unfold AdminPanel.setEditingArticle, AdminPanel.setIsEditing in *.
  cbn [AdminPanel.articles AdminPanel.isEditing AdminPanel.editingArticle
       AdminPanel.loading] in *.
  rewrite E. now repeat split.
Qed.

(** Saving sends nothing and changes nothing when there is no draft or
    when the title or the content of the draft is missing or empty; in
    particular a new article cannot be saved as it is opened. *)
Theorem blank_draft_is_not_saved (p : AdminPanel.Panel) (w : World) :
  (AdminPanel.saveRequest (AdminPanel.editingArticle p) = None ->
   AdminPanel.handleSave World await consoleError p w = (p, w))
  /\ (forall d,
        AdminPanel.truthy (AdminPanel.d_title d) = false
        \/ AdminPanel.truthy (AdminPanel.d_content d) = false ->
        AdminPanel.saveRequest (Some d) = None)
  /\ AdminPanel.saveRequest None = None
  /\ AdminPanel.handleSave World await consoleError
       (AdminPanel.startEditing None p) w
     = (AdminPanel.startEditing None p, w).
Proof.
  split; [|split; [|split]].
  - intros H. unfold AdminPanel.handleSave. now rewrite H.
  - intros d [H|H]; unfold AdminPanel.saveRequest; rewrite H;
      [reflexivity | now rewrite orb_true_r].
  - reflexivity.
  - reflexivity.
Qed.

(** A deletion changes the panel only when the user confirmed the dialog
    and the store answered the delete request without error. *)
Theorem delete_needs_confirmation_and_success
    (id : string) (p : AdminPanel.Panel) (w : World)
    (Hchanged :
       fst (AdminPanel.handleDelete World await consoleError confirm id p w)
       <> p) :
  fst (confirm "Are you sure you want to delete this article?" w) = true
  /\ exists r w1,
       await (AdminPanel.Delete "articles" "id" id)
             (snd (confirm "Are you sure you want to delete this article?" w))
       = (Fulfilled r, w1)
       /\ error r = None.
Proof.
  unfold AdminPanel.handleDelete in Hchanged.
  destruct (confirm "Are you sure you want to delete this article?" w)
    as [confirmed w0].
  destruct confirmed; [|now contradiction Hchanged].
  cbn [negb fst snd] in *. split; [reflexivity|].
  destruct (await (AdminPanel.Delete "articles" "id" id) w0)
    as [[r|reason] w1]; [|now contradiction Hchanged].
  destruct (error r) as [e|] eqn:Ee; [now contradiction Hchanged|].
  now exists r, w1.
Qed.

End EditorProperties.

Lemma save_failure_keeps_the_draft_witness :
  let p :=
    AdminPanel.mkPanel [] true
      (Some (AdminPanel.mkDraft None (Some "VPN") (Some "Use the client.")
                                (Some ["vpn"]) None None None None))
      false in
  fst (AdminPanel.handleSave Script scriptedReply silentConsole p
         [Fulfilled (mkResponse None (Some "permission denied"))])
  = p.
Proof.
  exact (save_failure_keeps_the_draft Script scriptedReply silentConsole
           (AdminPanel.mkPanel [] true
              (Some (AdminPanel.mkDraft None (Some "VPN")
                       (Some "Use the client.") (Some ["vpn"]) None None
                       None None))
              false)
           [Fulfilled (mkResponse None (Some "permission denied"))]
           _ eq_refl).
Defined.

Lemma delete_needs_confirmation_and_success_witness :
  fst (alwaysConfirm "Are you sure you want to delete this article?" [])
  = true
  /\ exists r w1,
       scriptedReply (AdminPanel.Delete "articles" "id" "7")
         (snd (alwaysConfirm "Are you sure you want to delete this article?"
                             []))
       = (Fulfilled r, w1)
       /\ error r = None.
Proof.
  apply (delete_needs_confirmation_and_success Script scriptedReply
           silentConsole alwaysConfirm "7"
           (AdminPanel.mkPanel [] false None true) []).
  cbv. discriminate.
Defined.
